(** * The form-submission server, embedded in Rocq

    The repository is an Express application in two variants: the demo
    server with an in-memory array ([submissions], [submissionCounter]) and
    the MongoDB server.  Both validate a POST body with the same
    express-validator chain ([validateInput]) and expose three API routes.

    This file embeds the route handlers and the validation chain as
    functions over JavaScript values, and proves the facts the
    specification states about them.

    What runs before a route handler (helmet, the rate limiter, morgan,
    the body parsers, the static files) is not part of the embedding: a
    request is what a handler receives.  Integers are exact and arrays
    are unbounded; the limits of the engine (2^53 for a counter, 2^32 - 1
    elements for an array) are out of reach of a process that holds its
    records in memory. *)

From Stdlib Require Import ZArith NArith Ascii String List Sorted Permutation DecimalN Lia.
From stdpp Require Import gmap strings list sorting.

Local Open Scope string_scope.
Local Open Scope list_scope.
Local Open Scope nat_scope.

(** ** JavaScript strings and values *)

(** A JavaScript string is a sequence of UTF-16 code units. *)
Abbreviation jsstring := (list N).

(** A literal of the source, as code units. *)
Definition str (s : string) : jsstring := N_of_ascii <$> list_ascii_of_string s.

(** The values that occur in request bodies, stored records and response
    bodies: primitives and [Date] objects.  Numbers are the integer-valued
    ones (counts and time values); arrays and nested objects do not occur
    in the modelled payloads. *)
Inductive jsval :=
| JUndefined
| JNull
| JBool (b : bool)
| JNumber (n : Z)
| JString (s : jsstring)
| JDate (t : Z).

#[global] Instance jsval_eq_dec : EqDecision jsval.
Proof. solve_decision. Defined.

(** A plain object with primitive fields. *)
Abbreviation obj := (gmap string jsval).

(** [o.k]: reading a property that is missing gives [undefined]. *)
Definition get (o : obj) (k : string) : jsval := default JUndefined (o !! k).

(** Truthiness, as [||] tests it. *)
Definition truthy (v : jsval) : bool :=
  match v with
  | JUndefined | JNull => false
  | JBool b => b
  | JNumber n => negb (n =? 0)%Z
  | JString s => negb (bool_decide (s = []))
  | JDate _ => true
  end.

(** [a || b] *)
Definition js_or (a b : jsval) : jsval := if truthy a then a else b.

(** *** Character classes of the regular expressions *)

Section Chars.
Local Open Scope N_scope.

(** [\s] of a JavaScript regular expression: WhiteSpace and LineTerminator. *)
Definition is_space (c : N) : bool :=
  ((0x09 <=? c) && (c <=? 0x0D)) || (c =? 0x20) || (c =? 0xA0) || (c =? 0x1680)
  || ((0x2000 <=? c) && (c <=? 0x200A)) || (c =? 0x2028) || (c =? 0x2029)
  || (c =? 0x202F) || (c =? 0x205F) || (c =? 0x3000) || (c =? 0xFEFF).

(** [a-zA-Z] *)
Definition is_letter (c : N) : bool :=
  ((0x41 <=? c) && (c <=? 0x5A)) || ((0x61 <=? c) && (c <=? 0x7A)).

(** [\d] *)
Definition is_digit (c : N) : bool := (0x30 <=? c) && (c <=? 0x39).

Definition is_high_surrogate (c : N) : bool := (0xD800 <=? c) && (c <=? 0xDBFF).
Definition is_low_surrogate (c : N) : bool := (0xDC00 <=? c) && (c <=? 0xDFFF).

(** [\uFE0F|\uFE0E]: the variation selectors 15 and 16. *)
Definition is_presentation_selector (c : N) : bool := (c =? 0xFE0F) || (c =? 0xFE0E).

(** [String.prototype.toLowerCase] on one code unit.  ASCII is exact; the
    Unicode case tables are not modelled and other code units are kept. *)
Definition lower_unit (c : N) : N :=
  if (0x41 <=? c) && (c <=? 0x5A) then c + 32 else c.

End Chars.

Definition toLowerCase (s : jsstring) : jsstring := lower_unit <$> s.

(** *** Numbers as text *)

Fixpoint uint_units (d : Decimal.uint) : jsstring :=
  match d with
  | Decimal.Nil => []
  | Decimal.D0 d => 48%N :: uint_units d
  | Decimal.D1 d => 49%N :: uint_units d
  | Decimal.D2 d => 50%N :: uint_units d
  | Decimal.D3 d => 51%N :: uint_units d
  | Decimal.D4 d => 52%N :: uint_units d
  | Decimal.D5 d => 53%N :: uint_units d
  | Decimal.D6 d => 54%N :: uint_units d
  | Decimal.D7 d => 55%N :: uint_units d
  | Decimal.D8 d => 56%N :: uint_units d
  | Decimal.D9 d => 57%N :: uint_units d
  end.

(** [String(n)] for a non-negative integer: its decimal digits.  (Exact for
    the integers a counter or a length takes; JavaScript switches to
    exponent notation from 1e21 on.) *)
Definition decimal (n : N) : jsstring := uint_units (N.to_uint n).

(** [String(n)] for an integer. *)
Definition number_to_string (n : Z) : jsstring :=
  match n with
  | Zneg p => str "-" ++ decimal (Npos p)
  | _ => decimal (Z.to_N n)
  end.

(** ** Functions the server calls and does not define

    [isEmail] and [normalizeEmail] are validator.js functions, reached
    through express-validator; [toISOString] is [Date.prototype.toISOString]
    on a time value.  The server is defined over any implementation of
    them; [runtime] below is the one the server runs with. *)
Class Library := {
  isEmail : jsstring → bool;
  normalizeEmail : jsstring → jsval;
  toISOString : Z → jsstring;
}.

(** ** validator.js: the checks and sanitizers of the chain *)

(** [isEmpty(str)] with the default options ([ignore_whitespace: false]):
    [str.length === 0]. *)
Definition isEmpty (s : jsstring) : bool := bool_decide (length s = 0).

(** Matches of [/(\uFE0F|\uFE0E)/g]. *)
Definition presentationSequences (s : jsstring) : nat :=
  length (filter (λ c, is_presentation_selector c = true) s).

(** Matches of [/[\uD800-\uDBFF][\uDC00-\uDFFF]/g], scanning left to right. *)
Fixpoint surrogatePairs (s : jsstring) : nat :=
  match s with
  | h :: t =>
      match t with
      | l :: rest =>
          if is_high_surrogate h && is_low_surrogate l
          then S (surrogatePairs rest) else surrogatePairs t
      | [] => 0
      end
  | [] => 0
  end.

(** The length [isLength] measures:
    [str.length - presentationSequences.length - surrogatePairs.length]. *)
Definition len (s : jsstring) : Z :=
  Z.of_nat (length s) - Z.of_nat (presentationSequences s) - Z.of_nat (surrogatePairs s).

(** [isLength(str, {min, max})]; a missing [min] is 0. *)
Definition isLength (min max : Z) (s : jsstring) : bool :=
  ((min <=? len s) && (len s <=? max))%Z.

(** [matches(str, /^[a-zA-Z\s]+$/)] *)
Definition matches_letters_and_spaces (s : jsstring) : bool :=
  negb (bool_decide (s = [])) && forallb (λ c, is_letter c || is_space c) s.

(** [ltrim(str)]: [str.replace(/^\s+/g, '')]. *)
Fixpoint ltrim (s : jsstring) : jsstring :=
  match s with
  | c :: s' => if is_space c then ltrim s' else s
  | [] => []
  end.

(** [rtrim(str)]: drops the white space at the end. *)
Definition rtrim (s : jsstring) : jsstring := rev (ltrim (rev s)).

(** [trim(str)]: [rtrim(ltrim(str))]. *)
Definition trim (s : jsstring) : jsstring := rtrim (ltrim s).

(** ** express-validator: running a validation chain *)

(** One entry of [validationResult(req).array()]. *)
Record verror := {
  value : jsval;
  msg : string;
  path : string;
  location : string;
}.

(** A chain is a sequence of standard validators, each with the message
    [withMessage] attached to it, and of standard sanitizers. *)
Inductive chain_item :=
| validator (test : jsstring → bool) (message : string)
| sanitizer (f : jsstring → jsval).

(** [body(field)] followed by its items. *)
Record chain := body_chain {
  field : string;
  items : list chain_item;
}.

(** [notEmpty()] is the negation of [isEmpty]. *)
Definition notEmpty (s : jsstring) : bool := negb (isEmpty s).

Section Validation.
Context `{Library}.

(** The text express-validator hands to a standard validator or sanitizer
    for a field value ([toString] in its [utils]). *)
Definition toString (v : jsval) : jsstring :=
  match v with
  | JUndefined | JNull => []
  | JBool true => str "true"
  | JBool false => str "false"
  | JNumber n => number_to_string n
  | JString s => s
  | JDate t => toISOString t
  end.

(** The items run in order on the current value of the field.  There is no
    [bail()]: a failing validator records its error and the chain goes on.
    A sanitizer replaces the value, also after a failure. *)
Fixpoint run_items (p : string) (its : list chain_item) (v : jsval) : jsval * list verror :=
  match its with
  | [] => (v, [])
  | validator test m :: its' =>
      let '(v', errs) := run_items p its' v in
      (v', if test (toString v) then errs
           else {| value := v; msg := m; path := p; location := "body" |} :: errs)
  | sanitizer f :: its' => run_items p its' (f (toString v))
  end.

(** The value of a field is written to [req.body] when it is not the one
    already there. *)
Definition write_back (k : string) (v : jsval) (b : obj) : obj :=
  if decide (v = get b k) then b else <[k := v]> b.

(** A chain reads [req.body[field]], runs its items and writes the value
    back. *)
Definition run_chain (c : chain) (b : obj) : obj * list verror :=
  let '(v', errs) := run_items (field c) (items c) (get b (field c)) in
  (write_back (field c) v' b, errs).

(** The chains of a middleware array run one after the other; the errors
    accumulate in that order. *)
Fixpoint run_chains (cs : list chain) (b : obj) : obj * list verror :=
  match cs with
  | [] => (b, [])
  | c :: cs' =>
      let '(b1, e1) := run_chain c b in
      let '(b2, e2) := run_chains cs' b1 in
      (b2, e1 ++ e2)
  end.

(** *** The chain of the repository *)

Definition name_chain : chain :=
  body_chain "name" [
    validator notEmpty "Name is required";
    validator (isLength 2 100) "Name must be between 2 and 100 characters";
    validator matches_letters_and_spaces "Name can only contain letters and spaces" ].

Definition email_chain : chain :=
  body_chain "email" [
    validator isEmail "Please enter a valid email address";
    sanitizer normalizeEmail;
    validator (isLength 0 255) "Email must be less than 255 characters" ].

Definition message_chain : chain :=
  body_chain "message" [
    validator notEmpty "Message is required";
    validator (isLength 10 1000) "Message must be between 10 and 1000 characters";
    sanitizer (λ s, JString (trim s)) ].

Definition validateInput : list chain := [name_chain; email_chain; message_chain].

End Validation.

(** ** Requests and responses *)

(** The routes of the API; [unmatched] is a request that reaches the 404
    handler. *)
Inductive route :=
| POST_api_submit
| GET_api_submissions
| GET_api_health
| unmatched.

(** What a handler reads of a request, and the clock reading [new Date()]
    gives while it is handled. *)
Record request := {
  target : route;
  body : obj;
  ip : jsval;
  remoteAddress : jsval;
  now : Z;
}.

(** A response: the status, and the JSON body as its scalar fields plus the
    [errors] and [data] arrays when it has them. *)
Record response := {
  status : nat;
  fields : obj;
  errors : option (list verror);
  data : option (list obj);
}.

Definition json (code : nat) (o : obj) : response :=
  {| status := code; fields := o; errors := None; data := None |}.

(** ** Ordering by [createdAt] *)

(** Insertion of [x] before the first element it does not come after. *)
Fixpoint insert_by (cmp : obj → obj → Z) (x : obj) (l : list obj) : list obj :=
  match l with
  | [] => [x]
  | y :: l' => if (cmp x y <=? 0)%Z then x :: l else y :: insert_by cmp x l'
  end.

(** The order [Array.prototype.sort] produces with a comparator: ascending
    by [cmp], and stable (ECMAScript 2019).  For a consistent comparator
    that order is unique. *)
Definition sorted_by (cmp : obj → obj → Z) (l : list obj) : list obj :=
  foldr (insert_by cmp) [] l.

(** The time value of [new Date(v)] for a [Date]; [None] stands for [NaN].
    The handlers store nothing else than a [Date] in [createdAt]; for any
    other value the conversion is not modelled and counts as [NaN]. *)
Definition time_value (v : jsval) : option Z :=
  match v with
  | JDate t => Some t
  | _ => None
  end.

(** The comparator [(a, b) => new Date(b.createdAt) - new Date(a.createdAt)],
    as [sort] reads it: a [NaN] result counts as [+0]. *)
Definition by_createdAt_desc (a b : obj) : Z :=
  match time_value (get b "createdAt"), time_value (get a "createdAt") with
  | Some tb, Some ta => tb - ta
  | _, _ => 0
  end.

(** ** The demo server (in-memory storage) *)

Module Demo.
Section Handlers.
Context `{Library}.

(** *** State and arrays *)

(** The two module-level variables. *)
Record state := {
  submissions : list obj;
  submissionCounter : N;
}.

Definition initial : state := {| submissions := []; submissionCounter := 1 |}.

(** Arrays are mutable and shared by reference.  A reference names either
    the array bound to [submissions] or an array allocated while a request
    is handled. *)
Inductive aref :=
| submissions_ref
| local_ref (i : nat).

Record machine := {
  server : state;
  locals : list (list obj);
}.

(** A computation either returns or throws, and leaves a machine behind. *)
Inductive outcome (A : Type) :=
| Return (a : A)
| Throw.
#[global] Arguments Return {A} a.
#[global] Arguments Throw {A}.

Definition M (A : Type) : Type := machine → outcome A * machine.

Definition ret {A} (a : A) : M A := λ m, (Return a, m).

Definition bind {A B} (c : M A) (k : A → M B) : M B :=
  λ m, match c m with
       | (Return a, m') => k a m'
       | (Throw, m') => (Throw, m')
       end.

(** [try { body } catch (error) { handler }] *)
Definition try_catch {A} (body handler : M A) : M A :=
  λ m, match body m with
       | (Return a, m') => (Return a, m')
       | (Throw, m') => handler m'
       end.

#[global] Instance M_ret : MRet M := @ret.
#[global] Instance M_bind : MBind M := λ A B k c, bind c k.

Definition arr_read (r : aref) : M (list obj) :=
  λ m, match r with
       | submissions_ref => (Return (submissions (server m)), m)
       | local_ref i =>
           match locals m !! i with
           | Some l => (Return l, m)
           | None => (Throw, m)
           end
       end.

Definition arr_write (r : aref) (l : list obj) : M unit :=
  λ m, match r with
       | submissions_ref =>
           (Return (),
            {| server := {| submissions := l;
                            submissionCounter := submissionCounter (server m) |};
               locals := locals m |})
       | local_ref i =>
           match locals m !! i with
           | Some _ => (Return (), {| server := server m; locals := <[i := l]> (locals m) |})
           | None => (Throw, m)
           end
       end.

Definition arr_alloc (l : list obj) : M aref :=
  λ m, (Return (local_ref (length (locals m))),
        {| server := server m; locals := locals m ++ [l] |}).

(** [submissionCounter++]: the old value is the result. *)
Definition post_increment : M N :=
  λ m, (Return (submissionCounter (server m)),
        {| server := {| submissions := submissions (server m);
                        submissionCounter := submissionCounter (server m) + 1 |};
           locals := locals m |}).

(** *** Array methods *)

(** [Array.prototype.map]: a new array. *)
Definition arr_map (f : obj → obj) (r : aref) : M aref :=
  l ← arr_read r; arr_alloc (f <$> l).

(** [Array.prototype.sort]: sorts the array in place and returns it. *)
Definition arr_sort (cmp : obj → obj → Z) (r : aref) : M aref :=
  l ← arr_read r; arr_write r (sorted_by cmp l);; ret r.

(** [Array.prototype.slice(a, b)] for [0 <= a <= b]: a new array. *)
Definition arr_slice (a b : nat) (r : aref) : M aref :=
  l ← arr_read r; arr_alloc (take (b - a) (drop a l)).

(** [Array.prototype.push]: appends in place, returns the new length. *)
Definition arr_push (r : aref) (x : obj) : M nat :=
  l ← arr_read r; arr_write r (l ++ [x]);; ret (length l + 1).

(** *** POST /api/submit *)

(** The [validateInput] middleware: it sanitizes [req.body] in place and
    leaves the errors for [validationResult]. *)
Definition validate (req : request) : request * list verror :=
  let '(b, errs) := run_chains validateInput (body req) in
  ({| target := target req; body := b; ip := ip req;
      remoteAddress := remoteAddress req; now := now req |}, errs).

Definition submit_handler (req : request) (errs : list verror) : M response :=
  try_catch
    (match errs with
     | _ :: _ =>
         ret {| status := 400;
                fields := {[ "success" := JBool false;
                             "message" := JString (str "Validation failed") ]};
                errors := Some errs;
                data := None |}
     | [] =>
         let name := get (body req) "name" in
         let email := get (body req) "email" in
         let message := get (body req) "message" in
         let ipAddress :=
           js_or (js_or (ip req) (remoteAddress req)) (JString (str "unknown")) in
         n ← post_increment;
         let userData : obj :=
           {[ "_id" := JString (str "demo-" ++ decimal n);
              "name" := name;
              "email" := email;
              "message" := message;
              "ipAddress" := ipAddress;
              "createdAt" := JDate (now req) ]} in
         arr_push submissions_ref userData;;
         ret (json 201 {[ "success" := JBool true;
                          "message" := JString (str "Data saved successfully");
                          "id" := get userData "_id" ]})
     end)
    (ret (json 500 {[ "success" := JBool false;
                      "message" :=
                        JString (str "Internal server error. Please try again later.") ]})).

(** *** GET /api/submissions *)

(** The callback of [map]: a new object with five properties. *)
Definition project (s : obj) : obj :=
  {[ "_id" := get s "_id";
     "name" := get s "name";
     "email" := get s "email";
     "message" := get s "message";
     "createdAt" := get s "createdAt" ]}.

Definition submissions_handler : M response :=
  try_catch
    (mapped ← arr_map project submissions_ref;
     sorted ← arr_sort by_createdAt_desc mapped;
     recentSubmissions ← arr_slice 0 50 sorted;
     items ← arr_read recentSubmissions;
     ret {| status := 200;
            fields := {[ "success" := JBool true ]};
            errors := None;
            data := Some items |})
    (ret (json 500 {[ "success" := JBool false;
                      "message" := JString (str "Error fetching submissions") ]})).

(** *** GET /api/health *)

Definition health_handler (req : request) : M response :=
  l ← arr_read submissions_ref;
  ret (json 200 {[ "status" := JString (str "healthy");
                   "timestamp" := JString (toISOString (now req));
                   "database" := JString (str "demo-mode (in-memory)");
                   "submissions_count" := JNumber (Z.of_nat (length l)) ]}).

(** *** The 404 handler and the error handler *)

Definition not_found : M response :=
  ret (json 404 {[ "success" := JBool false;
                   "message" := JString (str "Route not found") ]}).

Definition error_response : response :=
  json 500 {[ "success" := JBool false;
              "message" := JString (str "Internal server error") ]}.

(** *** One request, and a sequence of requests *)

(** The arrays a request allocates are not reachable once it is answered:
    every request starts with no local array and only [submissions] and
    [submissionCounter] survive it. *)
Definition handle (req : request) (st : state) : response * state :=
  let run (c : M response) :=
    match c {| server := st; locals := [] |} with
    | (Return r, m) => (r, server m)
    | (Throw, m) => (error_response, server m)
    end in
  match target req with
  | POST_api_submit => let '(req', errs) := validate req in run (submit_handler req' errs)
  | GET_api_submissions => run submissions_handler
  | GET_api_health => run (health_handler req)
  | unmatched => run not_found
  end.

Fixpoint serve (reqs : list request) (st : state) : list response * state :=
  match reqs with
  | [] => ([], st)
  | req :: reqs' =>
      let '(r, st1) := handle req st in
      let '(rs, st2) := serve reqs' st1 in
      (r :: rs, st2)
  end.

End Handlers.
End Demo.

(** ** The MongoDB server: listing and health check *)

Module Mongo.
Section Handlers.
Context `{Library}.

(** The collection behind the [UserData] model, and
    [mongoose.connection.readyState] (1 is "connected"). *)
Record db := {
  readyState : Z;
  documents : list obj;
}.

(** [UserData.find().select('-ipAddress').sort({ createdAt: -1 }).limit(50)]:
    the query is answered while the connection is up, and rejects
    otherwise.  MongoDB leaves the order of documents with equal keys
    open; the model takes the stable one and nothing below depends on
    it. *)
Definition find_recent (d : db) : option (list obj) :=
  if (readyState d =? 1)%Z
  then Some (take 50 (delete "ipAddress" <$> sorted_by by_createdAt_desc (documents d)))
  else None.

Definition submissions_handler (d : db) : response :=
  match find_recent d with
  | Some l =>
      {| status := 200;
         fields := {[ "success" := JBool true ]};
         errors := None;
         data := Some l |}
  | None =>
      json 500 {[ "success" := JBool false;
                  "message" := JString (str "Error fetching submissions") ]}
  end.

Definition health_handler (req : request) (d : db) : response :=
  json 200 {[ "status" := JString (str "healthy");
              "timestamp" := JString (toISOString (now req));
              "database" := JString (if (readyState d =? 1)%Z
                                     then str "connected" else str "disconnected") ]}.

End Handlers.
End Mongo.

(** ** The library the server runs with

    [isEmail] and [normalizeEmail] as validator.js 13 defines them for the
    default options, which is how the chain calls them, and
    [Date.prototype.toISOString]. *)

Module ValidatorJs.
Section Units.
Local Open Scope N_scope.

(** [str.split(sep)] for a separator of one code unit. *)
Fixpoint split (sep : N) (s : jsstring) : list jsstring :=
  match s with
  | [] => [[]]
  | c :: s' =>
      if c =? sep then [] :: split sep s'
      else match split sep s' with
           | p :: ps => (c :: p) :: ps
           | [] => [[c]]
           end
  end.

(** [parts.join(sep)] *)
Fixpoint join (sep : N) (parts : list jsstring) : jsstring :=
  match parts with
  | [] => []
  | p :: ps =>
      match ps with
      | [] => p
      | _ :: _ => p ++ sep :: join sep ps
      end
  end.

(** [parts = str.split('@'); domain = parts.pop(); user = parts.join('@')] *)
Definition user_and_domain (s : jsstring) : jsstring * jsstring :=
  let parts := split 64 s in
  (join 64 (removelast parts), List.last parts []).

(** [indexOf(domain) >= 0] *)
Definition listed (domains : list jsstring) (domain : jsstring) : bool :=
  existsb (λ d, bool_decide (d = domain)) domains.

(** *** normalizeEmail *)

Definition icloud_domains : list jsstring := str <$> ["icloud.com"; "me.com"]%string.

Definition outlookdotcom_domains : list jsstring := str <$> [
  "hotmail.at"; "hotmail.be"; "hotmail.ca"; "hotmail.cl"; "hotmail.co.il";
  "hotmail.co.nz"; "hotmail.co.th"; "hotmail.co.uk"; "hotmail.com";
  "hotmail.com.ar"; "hotmail.com.au"; "hotmail.com.br"; "hotmail.com.gr";
  "hotmail.com.mx"; "hotmail.com.pe"; "hotmail.com.tr"; "hotmail.com.vn";
  "hotmail.cz"; "hotmail.de"; "hotmail.dk"; "hotmail.es"; "hotmail.fr";
  "hotmail.hu"; "hotmail.id"; "hotmail.ie"; "hotmail.in"; "hotmail.it";
  "hotmail.jp"; "hotmail.kr"; "hotmail.lv"; "hotmail.my"; "hotmail.ph";
  "hotmail.pt"; "hotmail.sa"; "hotmail.sg"; "hotmail.sk"; "live.be";
  "live.co.uk"; "live.com"; "live.com.ar"; "live.com.mx"; "live.de";
  "live.es"; "live.eu"; "live.fr"; "live.it"; "live.nl"; "msn.com";
  "outlook.at"; "outlook.be"; "outlook.cl"; "outlook.co.il"; "outlook.co.nz";
  "outlook.co.th"; "outlook.com"; "outlook.com.ar"; "outlook.com.au";
  "outlook.com.br"; "outlook.com.gr"; "outlook.com.pe"; "outlook.com.tr";
  "outlook.com.vn"; "outlook.cz"; "outlook.de"; "outlook.dk"; "outlook.es";
  "outlook.fr"; "outlook.hu"; "outlook.id"; "outlook.ie"; "outlook.in";
  "outlook.it"; "outlook.jp"; "outlook.kr"; "outlook.lv"; "outlook.my";
  "outlook.ph"; "outlook.pt"; "outlook.sa"; "outlook.sg"; "outlook.sk";
  "passport.com" ]%string.

Definition yahoo_domains : list jsstring := str <$> [
  "rocketmail.com"; "yahoo.ca"; "yahoo.co.uk"; "yahoo.com"; "yahoo.de";
  "yahoo.fr"; "yahoo.in"; "yahoo.it"; "ymail.com" ]%string.

Definition yandex_domains : list jsstring := str <$> [
  "yandex.ru"; "yandex.ua"; "yandex.kz"; "yandex.com"; "yandex.by"; "ya.ru" ]%string.

(** [replace(/\.+/g, dotsReplacer)]: a dot on its own is removed, a run of
    several dots is kept.  [run] counts the dots just read. *)
Definition flush_dots (run : nat) : jsstring :=
  match run with
  | 0%nat | 1%nat => []
  | _ => repeat 46 run
  end.

Fixpoint replace_dots (run : nat) (s : jsstring) : jsstring :=
  match s with
  | [] => flush_dots run
  | c :: s' =>
      if c =? 46 then replace_dots (S run) s'
      else flush_dots run ++ c :: replace_dots 0 s'
  end.

(** [user.split('+')[0]] *)
Definition remove_subaddress (user : jsstring) : jsstring := hd [] (split 43 user).

(** Yahoo: [components = user.split('-')]; all but the last one when there
    are several. *)
Definition remove_yahoo_subaddress (user : jsstring) : jsstring :=
  let components := split 45 user in
  if (1 <? length components)%nat then join 45 (removelast components)
  else hd [] components.

(** [parts.join('@')], or [false] when the local part has become empty. *)
Definition rejoin (user domain : jsstring) : jsval :=
  match user with
  | [] => JBool false
  | _ :: _ => JString (toLowerCase user ++ 64 :: domain)
  end.

(** [normalizeEmail(email)] with the default options: everything is lower
    cased, and the addresses of the listed providers lose their dots and
    subaddresses. *)
Definition normalizeEmail (email : jsstring) : jsval :=
  let '(user, domain) := user_and_domain email in
  let domain := toLowerCase domain in
  if bool_decide (domain = str "gmail.com") || bool_decide (domain = str "googlemail.com")
  then rejoin (replace_dots 0 (remove_subaddress user)) (str "gmail.com")
  else if listed icloud_domains domain then rejoin (remove_subaddress user) domain
  else if listed outlookdotcom_domains domain then rejoin (remove_subaddress user) domain
  else if listed yahoo_domains domain then rejoin (remove_yahoo_subaddress user) domain
  else if listed yandex_domains domain
  then JString (toLowerCase user ++ 64 :: str "yandex.ru")
  else JString (toLowerCase user ++ 64 :: domain).

(** *** isEmail *)

(** [isByteLength]: the length of the UTF-8 encoding ([encodeURI] throws on
    an unpaired surrogate; it is counted as three bytes here). *)
Fixpoint byteLength (s : jsstring) : nat :=
  match s with
  | [] => 0
  | c :: t =>
      if c <? 0x80 then S (byteLength t)
      else if c <? 0x800 then S (S (byteLength t))
      else match t with
           | l :: rest =>
               if is_high_surrogate c && is_low_surrogate l
               then (4 + byteLength rest)%nat else (3 + byteLength t)%nat
           | [] => 3%nat
           end
  end.

(** The units beyond ASCII that the patterns of a local part allow:
    [\u00A1-\uD7FF\uF900-\uFDCF\uFDF0-\uFFEF]. *)
Definition is_utf8_unit (c : N) : bool :=
  ((0xA1 <=? c) && (c <=? 0xD7FF)) || ((0xF900 <=? c) && (c <=? 0xFDCF))
  || ((0xFDF0 <=? c) && (c <=? 0xFFEF)).

Definition one_of (chars : string) (c : N) : bool :=
  existsb (N.eqb c) (str chars).

(** The class of [emailUserUtf8Part], with the [i] flag. *)
Definition is_user_unit (c : N) : bool :=
  is_letter c || is_digit c || one_of "!#$%&'*+-/=?^_`{|}~" c || is_utf8_unit c.

(** The two alternatives of [quotedEmailUserUtf8]. *)
Definition is_quoted_unit (c : N) : bool :=
  is_space c || ((0x01 <=? c) && (c <=? 0x08)) || (c =? 0x0b) || (c =? 0x0c)
  || ((0x0e <=? c) && (c <=? 0x1f)) || (c =? 0x7f) || (c =? 0x21)
  || ((0x23 <=? c) && (c <=? 0x5b)) || ((0x5d <=? c) && (c <=? 0x7e))
  || is_utf8_unit c.

Definition is_escaped_unit (c : N) : bool :=
  ((0x01 <=? c) && (c <=? 0x09)) || (c =? 0x0b) || (c =? 0x0c)
  || ((0x0d <=? c) && (c <=? 0x7f)) || is_utf8_unit c.

Fixpoint quotedEmailUser (s : jsstring) : bool :=
  match s with
  | [] => true
  | c :: t =>
      if is_quoted_unit c then quotedEmailUser t
      else if c =? 0x5c
      then match t with
           | e :: rest => is_escaped_unit e && quotedEmailUser rest
           | [] => false
           end
      else false
  end.

(** The first alternative of the top-level-domain pattern of [isFQDN]. *)
Definition is_tld_unit (c : N) : bool :=
  is_letter c || ((0xA1 <=? c) && (c <=? 0xA8)) || ((0xAA <=? c) && (c <=? 0xD7FF))
  || ((0xF900 <=? c) && (c <=? 0xFDCF)) || ((0xFDF0 <=? c) && (c <=? 0xFFEF)).

Definition tld_pattern (tld : jsstring) : bool :=
  ((2 <=? length tld)%nat && forallb is_tld_unit tld)
  || match tld with
     | x :: n :: rest =>
         ((x =? 0x78) || (x =? 0x58)) && ((n =? 0x6e) || (n =? 0x4e))
         && (2 <=? length rest)%nat
         && forallb (λ c, is_letter c || is_digit c || (c =? 0x2d)) rest
     | _ => false
     end.

(** One label of a domain name, as [isFQDN] checks it. *)
Definition fqdn_part (part : jsstring) : bool :=
  (length part <=? 63)%nat
  && negb (bool_decide (part = []))
  && forallb (λ c, is_letter c || (c =? 0x5f) || (0xA1 <=? c) || is_digit c || (c =? 0x2d)) part
  && negb (existsb (λ c, (0xFF01 <=? c) && (c <=? 0xFF5E)) part)
  && negb (bool_decide (hd 0 part = 0x2d))
  && negb (bool_decide (List.last part 0 = 0x2d))
  && negb (existsb (N.eqb 0x5f) part).

(** [isFQDN(domain, { require_tld: true })] *)
Definition isFQDN (domain : jsstring) : bool :=
  let parts := split 46 domain in
  let tld := List.last parts [] in
  (2 <=? length parts)%nat
  && tld_pattern tld
  && negb (existsb is_space tld)
  && negb (negb (bool_decide (tld = [])) && forallb is_digit tld)
  && forallb fqdn_part parts.

(** [isEmail(str)] with the default options. *)
Definition isEmail (s : jsstring) : bool :=
  if (254 <? length s)%nat then false
  else
    let '(user, domain) := user_and_domain s in
    if negb ((byteLength user <=? 64)%nat && (byteLength domain <=? 254)%nat) then false
    else if negb (isFQDN domain) then false
    else
      match user with
      | 0x22 :: _ => quotedEmailUser (removelast (tl user))
      | _ =>
          forallb (λ part, negb (bool_decide (part = [])) && forallb is_user_unit part)
                  (split 46 user)
      end.

End Units.
End ValidatorJs.

(** *** Date.prototype.toISOString *)

Module DatePrototype.
Section Dates.
Local Open Scope Z_scope.

(** The decimal digits of [n], padded with zeros to [width] digits. *)
Definition padded (width : nat) (n : Z) : jsstring :=
  let digits := decimal (Z.to_N n) in
  repeat 48%N (width - length digits) ++ digits.

(** Year, month and day of the day number [z] (days since 1970-01-01). *)
Definition civil_from_days (z : Z) : Z * Z * Z :=
  let z := z + 719468 in
  let era := z / 146097 in
  let doe := z - era * 146097 in
  let yoe := (doe - doe / 1460 + doe / 36524 - doe / 146096) / 365 in
  let doy := doe - (365 * yoe + yoe / 4 - yoe / 100) in
  let mp := (5 * doy + 2) / 153 in
  let d := doy - (153 * mp + 2) / 5 + 1 in
  let m := if mp <? 10 then mp + 3 else mp - 9 in
  let y := yoe + era * 400 + (if m <=? 2 then 1 else 0) in
  (y, m, d).

(** [YYYY-MM-DDTHH:mm:ss.sssZ], with a sign and six digits for a year
    outside 0 to 9999. *)
Definition toISOString (t : Z) : jsstring :=
  let '(y, m, d) := civil_from_days (t / 86400000) in
  let ms := t mod 86400000 in
  let year :=
    if (0 <=? y) && (y <=? 9999) then padded 4 y
    else (if y <? 0 then str "-" else str "+") ++ padded 6 (Z.abs y) in
  year ++ str "-" ++ padded 2 m ++ str "-" ++ padded 2 d
  ++ str "T" ++ padded 2 (ms / 3600000) ++ str ":" ++ padded 2 (ms / 60000 mod 60)
  ++ str ":" ++ padded 2 (ms / 1000 mod 60) ++ str "." ++ padded 3 (ms mod 1000)
  ++ str "Z".

End Dates.
End DatePrototype.

(** The library of the running server. *)
#[global] Instance runtime : Library := {|
  isEmail := ValidatorJs.isEmail;
  normalizeEmail := ValidatorJs.normalizeEmail;
  toISOString := DatePrototype.toISOString;
|}.

(** ** Regular expressions

    The patterns of the client script are anchored at both ends and have
    neither groups to remember nor assertions: [test] answers whether the
    whole text belongs to the language of the pattern.  The matcher works
    by derivatives. *)

Module RegExp.

Inductive regex :=
| Empty
| Eps
| Class (p : N → bool)
| Seq (r1 r2 : regex)
| Alt (r1 r2 : regex)
| Star (r : regex).

(** [r+] *)
Definition Plus (r : regex) : regex := Seq r (Star r).

Fixpoint nullable (r : regex) : bool :=
  match r with
  | Empty => false
  | Eps => true
  | Class _ => false
  | Seq r1 r2 => nullable r1 && nullable r2
  | Alt r1 r2 => nullable r1 || nullable r2
  | Star _ => true
  end.

(** What is left of [r] to match once the unit [c] is read. *)
Fixpoint deriv (c : N) (r : regex) : regex :=
  match r with
  | Empty => Empty
  | Eps => Empty
  | Class p => if p c then Eps else Empty
  | Seq r1 r2 =>
      if nullable r1 then Alt (Seq (deriv c r1) r2) (deriv c r2)
      else Seq (deriv c r1) r2
  | Alt r1 r2 => Alt (deriv c r1) (deriv c r2)
  | Star r => Seq (deriv c r) (Star r)
  end.

(** [/^r$/.test(s)] *)
Fixpoint test (r : regex) (s : jsstring) : bool :=
  match s with
  | [] => nullable r
  | c :: s' => test (deriv c r) s'
  end.

(** The language of a pattern. *)
Inductive Matches : regex → jsstring → Prop :=
| MEps : Matches Eps []
| MClass p c : p c = true → Matches (Class p) [c]
| MSeq r1 r2 s1 s2 : Matches r1 s1 → Matches r2 s2 → Matches (Seq r1 r2) (s1 ++ s2)
| MAltL r1 r2 s : Matches r1 s → Matches (Alt r1 r2) s
| MAltR r1 r2 s : Matches r2 s → Matches (Alt r1 r2) s
| MStarNil r : Matches (Star r) []
| MStarApp r s1 s2 : Matches r s1 → Matches (Star r) s2 → Matches (Star r) (s1 ++ s2).

End RegExp.

(** ** The client script *)

Module Client.
Import RegExp.

(** [[^\s@]] *)
Definition is_address_unit (c : N) : bool := negb (is_space c || (c =? 64)%N).

(** [/^[^\s@]+@[^\s@]+\.[^\s@]+$/] *)
Definition emailRegex : regex :=
  Seq (Plus (Class is_address_unit))
    (Seq (Class (N.eqb 64))
       (Seq (Plus (Class is_address_unit))
          (Seq (Class (N.eqb 46))
             (Plus (Class is_address_unit))))).

(** [/^[a-zA-Z\s]+$/] *)
Definition nameRegex : regex := Plus (Class (λ c, is_letter c || is_space c)).

(** [!text.trim()]: [String.prototype.trim] removes the white space that
    [\s] matches, at both ends. *)
Definition blank (text : jsstring) : bool := bool_decide (trim text = []).

(** The validation functions return the message of the first check that
    fails, or [null] ([None]). *)
Definition validateName (name : jsstring) : option string :=
  if blank name then Some "Name is required"
  else if length name <? 2 then Some "Name must be at least 2 characters"
  else if 100 <? length name then Some "Name must be less than 100 characters"
  else if negb (test nameRegex name) then Some "Name can only contain letters and spaces"
  else None.

Definition validateEmail (email : jsstring) : option string :=
  if blank email then Some "Email is required"
  else if negb (test emailRegex email) then Some "Please enter a valid email address"
  else if 255 <? length email then Some "Email must be less than 255 characters"
  else None.

Definition validateMessage (message : jsstring) : option string :=
  if blank message then Some "Message is required"
  else if length message <? 10 then Some "Message must be at least 10 characters"
  else if 1000 <? length message then Some "Message must be less than 1000 characters"
  else None.

(** The submit listener: the errors it shows; the request goes out when
    there is none. *)
Definition form_errors (name email message : jsstring) : list (string * string) :=
  (match validateName name with Some m => [("name", m)] | None => [] end)
  ++ (match validateEmail email with Some m => [("email", m)] | None => [] end)
  ++ (match validateMessage message with Some m => [("message", m)] | None => [] end).

(** The body of the request the listener sends. *)
Definition form_body (name email message : jsstring) : obj :=
  {[ "name" := JString name; "email" := JString email; "message" := JString message ]}.

(** [escapeHtml]: the text becomes the only child, a text node, of a new
    [div], and [innerHTML] serializes it: the HTML serialization of a text
    node replaces the ampersand, the no-break space and the two angle
    brackets by entities. *)
Definition escape_unit (c : N) : jsstring :=
  if (c =? 38)%N then str "&amp;"
  else if (c =? 0xA0)%N then str "&nbsp;"
  else if (c =? 60)%N then str "&lt;"
  else if (c =? 62)%N then str "&gt;"
  else [c].

Definition escapeHtml (text : jsstring) : jsstring := mjoin (escape_unit <$> text).

End Client.

(** ** The MongoDB server: POST /api/submit *)

Module MongoSubmit.
Section Handlers.
Context `{Library}.

(** The options of a String path of [userDataSchema]. *)
Record string_path := {
  required : bool;
  trim_option : bool;
  lowercase : bool;
  maxlength : option nat;
}.

Definition name_path : string_path :=
  {| required := true; trim_option := true; lowercase := false; maxlength := Some 100 |}.

Definition email_path : string_path :=
  {| required := true; trim_option := true; lowercase := true; maxlength := Some 255 |}.

Definition message_path : string_path :=
  {| required := true; trim_option := true; lowercase := false; maxlength := Some 1000 |}.

Definition ipAddress_path : string_path :=
  {| required := true; trim_option := false; lowercase := false; maxlength := None |}.

(** Mongoose casts the value given for a String path to a string;
    [undefined] and [null] stay what they are ([None]).  For the values
    of a parsed body (no [Date] among them) the string is the one
    express-validator works on. *)
Definition cast (v : jsval) : option jsstring :=
  match v with
  | JUndefined | JNull => None
  | _ => Some (toString v)
  end.

(** The setters of the options [trim] and [lowercase]. *)
Definition set_path (p : string_path) (v : jsval) : option jsstring :=
  (λ s, let s := if trim_option p then trim s else s in
        if lowercase p then toLowerCase s else s) <$> cast v.

(** The validators of the options [required] and [maxlength]: a required
    string is not empty; the length is the number of code units. *)
Definition path_valid (p : string_path) (v : option jsstring) : bool :=
  (negb (required p) || match v with Some (_ :: _) => true | _ => false end)
  && match maxlength p, v with
     | Some n, Some s => length s <=? n
     | _, _ => true
     end.

(** A field of the document: a path that is not set is absent. *)
Definition put (k : string) (v : option jsstring) (o : obj) : obj :=
  match v with
  | Some s => <[k := JString s]> o
  | None => o
  end.

(** [new UserData({ name, email, message, ipAddress })], with the [_id]
    that the driver generates for it, and [userData.save()]: the document
    is validated, then inserted while the connection is up ([__v] is the
    version key of a new document).  A failed validation and a failed
    insertion both reject. *)
Definition save (oid : jsstring) (name email message ipAddress : jsval) (t : Z)
    (d : Mongo.db) : option (obj * Mongo.db) :=
  let n := set_path name_path name in
  let e := set_path email_path email in
  let m := set_path message_path message in
  let a := set_path ipAddress_path ipAddress in
  if path_valid name_path n && path_valid email_path e
     && path_valid message_path m && path_valid ipAddress_path a
     && (Mongo.readyState d =? 1)%Z
  then
    let doc : obj :=
      put "name" n (put "email" e (put "message" m (put "ipAddress" a
        {[ "_id" := JString oid; "createdAt" := JDate t; "__v" := JNumber 0 ]}))) in
    Some (doc, {| Mongo.readyState := Mongo.readyState d;
                  Mongo.documents := Mongo.documents d ++ [doc] |})
  else None.

(** The route handler, after the [validateInput] middleware; [oid] is the
    identifier generated for the new document. *)
Definition submit_handler (oid : jsstring) (req : request) (errs : list verror)
    (d : Mongo.db) : response * Mongo.db :=
  match errs with
  | _ :: _ =>
      ({| status := 400;
          fields := {[ "success" := JBool false;
                       "message" := JString (str "Validation failed") ]};
          errors := Some errs;
          data := None |}, d)
  | [] =>
      let name := get (body req) "name" in
      let email := get (body req) "email" in
      let message := get (body req) "message" in
      let ipAddress :=
        js_or (js_or (ip req) (remoteAddress req)) (JString (str "unknown")) in
      match save oid name email message ipAddress (now req) d with
      | Some (savedData, d') =>
          (json 201 {[ "success" := JBool true;
                       "message" := JString (str "Data saved successfully");
                       "id" := get savedData "_id" ]}, d')
      | None =>
          (json 500 {[ "success" := JBool false;
                       "message" :=
                         JString (str "Internal server error. Please try again later.") ]},
           d)
      end
  end.

(** POST /api/submit: the middleware, then the handler. *)
Definition submit (oid : jsstring) (req : request) (d : Mongo.db) : response * Mongo.db :=
  let '(req', errs) := Demo.validate req in
  submit_handler oid req' errs d.

End Handlers.
End MongoSubmit.

(** ** Vocabulary of the statements *)

(** The three inputs of the form. *)
Inductive input := Name | Email | Message.

Definition key (i : input) : string :=
  match i with
  | Name => "name"
  | Email => "email"
  | Message => "message"
  end.

Section Vocabulary.
Context `{Library}.

(** What the chain of an input demands of the text submitted for it: the
    conjunction of its validators, each on the value it is run on. *)
Definition rule (i : input) (s : jsstring) : bool :=
  match i with
  | Name => notEmpty s && isLength 2 100 s && matches_letters_and_spaces s
  | Email => isEmail s && isLength 0 255 (toString (normalizeEmail s))
  | Message => notEmpty s && isLength 10 1000 s
  end.

(** The text submitted for an input. *)
Definition submitted (b : obj) (i : input) : jsstring := toString (get b (key i)).

Definition violates (b : obj) (i : input) : Prop := rule i (submitted b i) = false.

Definition valid (b : obj) : Prop := ∀ i, rule i (submitted b i) = true.

(** The error a validator leaves when its test fails. *)
Definition complaint (ok : bool) (v : jsval) (m p : string) : list verror :=
  if ok then [] else [ {| value := v; msg := m; path := p; location := "body" |} ].

Definition name_errors (b : obj) : list verror :=
  let v := get b "name" in
  complaint (notEmpty (toString v)) v "Name is required" "name"
  ++ complaint (isLength 2 100 (toString v)) v
       "Name must be between 2 and 100 characters" "name"
  ++ complaint (matches_letters_and_spaces (toString v)) v
       "Name can only contain letters and spaces" "name".

Definition email_errors (b : obj) : list verror :=
  let v := get b "email" in
  let v' := normalizeEmail (toString v) in
  complaint (isEmail (toString v)) v "Please enter a valid email address" "email"
  ++ complaint (isLength 0 255 (toString v')) v'
       "Email must be less than 255 characters" "email".

Definition message_errors (b : obj) : list verror :=
  let v := get b "message" in
  complaint (notEmpty (toString v)) v "Message is required" "message"
  ++ complaint (isLength 10 1000 (toString v)) v
       "Message must be between 10 and 1000 characters" "message".

(** The content of [validationResult(req).array()] for a body. *)
Definition errors_of (b : obj) : list verror :=
  name_errors b ++ email_errors b ++ message_errors b.

(** The record a successful submission appends when the counter is [n]. *)
Definition userData_of (req : request) (n : N) : obj :=
  {[ "_id" := JString (str "demo-" ++ decimal n);
     "name" := get (body req) "name";
     "email" := normalizeEmail (submitted (body req) Email);
     "message" := JString (trim (submitted (body req) Message));
     "ipAddress" := js_or (js_or (ip req) (remoteAddress req)) (JString (str "unknown"));
     "createdAt" := JDate (now req) ]}.

End Vocabulary.

(** The time value of the [createdAt] of a record that carries a [Date]. *)
Definition created (o : obj) : Z := default 0%Z (time_value (get o "createdAt")).

(** [a] is at least as recent as [b]. *)
Definition newer_first (a b : obj) : Prop := (created b ≤ created a)%Z.

(** Every record carries a [Date] in [createdAt]. *)
Definition dated (l : list obj) : Prop :=
  Forall (λ o, is_Some (time_value (get o "createdAt"))) l.

(** The [id]s that the 201 responses of a run carry. *)
Definition returned_ids (rs : list response) : list jsval :=
  omap (λ r, if decide (status r = 201) then Some (get (fields r) "id") else None) rs.

(** A unit that [isLength] counts as one: neither a variation selector nor
    half of a surrogate pair. *)
Definition plain (c : N) : Prop :=
  is_presentation_selector c = false ∧ is_high_surrogate c = false ∧ is_low_surrogate c = false.

(** The properties of an item of a listing. *)
Definition five_fields : gset string :=
  {[ "_id"; "name"; "email"; "message"; "createdAt" ]}.

(** *** Sample requests *)

Definition post (n e m : string) (t : Z) : request :=
  {| target := POST_api_submit;
     body := {[ "name" := JString (str n);
                "email" := JString (str e);
                "message" := JString (str m) ]};
     ip := JString (str "203.0.113.7");
     remoteAddress := JString (str "203.0.113.7");
     now := t |}.

Definition list_request (t : Z) : request :=
  {| target := GET_api_submissions; body := ∅; ip := JUndefined;
     remoteAddress := JUndefined; now := t |}.

Definition health_request (t : Z) : request :=
  {| target := GET_api_health; body := ∅; ip := JUndefined;
     remoteAddress := JUndefined; now := t |}.

(** The example of the specification. *)
Definition jane : request :=
  post "Jane Doe" "JANE@Example.com" "Hello, this is a test message." 1700000000000.





(** A GMail address whose local part is a subaddress only. *)
Definition gmail_subaddress : request :=
  post "Jane Doe" "+x@gmail.com" "Hello, this is a test message." 1700000000000.

(** Two submissions handled within the same millisecond. *)
Definition first_of_instant : request :=
  post "First" "first@example.com" "The first of two messages." 1700000000000.

Definition second_of_instant : request :=
  post "Second" "second@example.com" "The second of two messages." 1700000000000.

(** A state of the collection of the MongoDB server. *)
Definition one_document : Mongo.db :=
  {| Mongo.readyState := 1;
     Mongo.documents := [ {[ "_id" := JString (str "65a5e1c2f0a1b2c3d4e5f601");
                             "name" := JString (str "Jane Doe");
                             "email" := JString (str "jane@example.com");
                             "message" := JString (str "Hello, this is a test message.");
                             "ipAddress" := JString (str "203.0.113.7");
                             "createdAt" := JDate 1700000000000 ]} ] |}.

(** *** Reading runs *)

(** A field of the stored records, in the order of the array. *)
Definition stored_field (k : string) (st : Demo.state) : list jsval :=
  (λ rec : obj, get rec k) <$> Demo.submissions st.

(** A field of the items of a listing, in the order of [data]. *)
Definition listed_field (k : string) (r : response) : option (list jsval) :=
  fmap (M := list) (λ o : obj, get o k) <$> data r.

(** Two submissions of one instant, then a listing. *)
Definition same_instant_run : list response :=
  (Demo.serve [first_of_instant; second_of_instant; list_request 1700000000001]
     Demo.initial).1.

(** The GMail subaddress, then a listing. *)
Definition gmail_run : list response * Demo.state :=
  Demo.serve [gmail_subaddress; list_request 1700000000001] Demo.initial.

(** The example of the specification, then a listing. *)
Definition jane_run : list response * Demo.state :=
  Demo.serve [jane; list_request 1700000000001] Demo.initial.

(** *** Vocabulary of the further properties *)

(** The fields of a stored record. *)
Definition six_fields : gset string :=
  {[ "_id"; "name"; "email"; "message"; "ipAddress"; "createdAt" ]}.

(** The [_id] of the [k]-th submission of the demo server. *)
Definition demo_id (k : nat) : jsval := JString (str "demo-" ++ decimal (N.of_nat k)).

(** Every record is strictly newer than the ones before it. *)
Definition ascending (l : list obj) : Prop :=
  StronglySorted (λ a b, (created a < created b)%Z) l.

(** The answer of the [catch] block of POST /api/submit. *)
Definition server_error : response :=
  json 500 {[ "success" := JBool false;
              "message" :=
                JString (str "Internal server error. Please try again later.") ]}.

(** A submission half a second after [first_of_instant]. *)
Definition later_post : request :=
  post "Later" "later@example.com" "A message sent later on." 1700000000500.

(** The example of the specification with one more field in the body. *)
Definition jane_with_extra : request :=
  {| target := target jane;
     body := <["isAdmin" := JBool true]> (body jane);
     ip := ip jane; remoteAddress := remoteAddress jane; now := now jane |}.

(** A name of two spaces. *)
Definition blank_name : request :=
  post "  " "jane@example.com" "Hello, this is a test message." 1700000000000.

(** The three inputs missing. *)
Definition empty_post : request :=
  {| target := POST_api_submit; body := ∅; ip := JUndefined;
     remoteAddress := JUndefined; now := 1700000000000 |}.

(** An identifier as the driver generates them. *)
Definition sample_oid : jsstring := str "65a5e1c2f0a1b2c3d4e5f602".

(** * Properties *)

(** ** Objects *)

Lemma get_write_back k v b : get (write_back k v b) k = v.
Proof.
  unfold write_back. destruct (decide _) as [->|]; [done|].
  unfold get. by rewrite lookup_insert_eq.
Qed.

Lemma get_write_back_ne k k' v b : k ≠ k' → get (write_back k v b) k' = get b k'.
Proof.
  intros. unfold write_back. destruct (decide _); [done|].
  unfold get. by rewrite lookup_insert_ne.
Qed.

Lemma write_back_same k b : write_back k (get b k) b = b.
Proof. unfold write_back. by rewrite decide_True. Qed.

(** ** The validation chain *)

Ltac split_checks :=
  unfold complaint;
  repeat match goal with |- context [if ?c then _ else _] => destruct c end;
  reflexivity.

Section Chain.
Context `{Library}.

Lemma run_name_chain b : run_chain name_chain b = (b, name_errors b).
Proof.
  unfold run_chain, name_chain, name_errors. cbn [field items run_items].
  rewrite write_back_same. f_equal. split_checks.
Qed.

Lemma run_email_chain b :
  run_chain email_chain b =
    (write_back "email" (normalizeEmail (toString (get b "email"))) b, email_errors b).
Proof.
  unfold run_chain, email_chain, email_errors. cbn [field items run_items].
  f_equal. split_checks.
Qed.

Lemma run_message_chain b :
  run_chain message_chain b =
    (write_back "message" (JString (trim (toString (get b "message")))) b,
     message_errors b).
Proof.
  unfold run_chain, message_chain, message_errors. cbn [field items run_items].
  f_equal. split_checks.
Qed.

(** The middleware as a whole: the sanitized body and the errors. *)
Lemma run_validateInput b :
  run_chains validateInput b =
    (write_back "message" (JString (trim (submitted b Message)))
       (write_back "email" (normalizeEmail (submitted b Email)) b),
     errors_of b).
Proof.
  unfold validateInput, run_chains, errors_of, submitted.
  rewrite run_name_chain, run_email_chain, run_message_chain.
  unfold message_errors at 1.
  rewrite get_write_back_ne by discriminate.
  by rewrite app_nil_r.
Qed.

Lemma complaint_nil ok v m p : complaint ok v m p = [] ↔ ok = true.
Proof. destruct ok; simpl; split; congruence. Qed.

Lemma complaint_path ok v m p e : e ∈ complaint ok v m p → path e = p.
Proof. destruct ok; simpl; [by intros ?%elem_of_nil|]. by intros ->%list_elem_of_singleton. Qed.

Lemma name_errors_nil b : name_errors b = [] ↔ rule Name (submitted b Name) = true.
Proof.
  unfold name_errors, rule, submitted, complaint; simpl.
  repeat match goal with |- context [if ?c then _ else _] => destruct c end;
    simpl; split; congruence.
Qed.

Lemma email_errors_nil b : email_errors b = [] ↔ rule Email (submitted b Email) = true.
Proof.
  unfold email_errors, rule, submitted, complaint; simpl.
  repeat match goal with |- context [if ?c then _ else _] => destruct c end;
    simpl; split; congruence.
Qed.

Lemma message_errors_nil b : message_errors b = [] ↔ rule Message (submitted b Message) = true.
Proof.
  unfold message_errors, rule, submitted, complaint; simpl.
  repeat match goal with |- context [if ?c then _ else _] => destruct c end;
    simpl; split; congruence.
Qed.

(** No error is reported exactly when every input meets its rule. *)
Lemma errors_of_nil b : errors_of b = [] ↔ valid b.
Proof.
  unfold errors_of, valid. rewrite !app_nil.
  rewrite name_errors_nil, email_errors_nil, message_errors_nil. split.
  - intros (? & ? & ?) []; assumption.
  - intros Hv. repeat split; apply Hv.
Qed.


End Chain.

(** ** Sorting *)

Lemma insert_by_perm cmp x l : insert_by cmp x l ≡ₚ x :: l.
Proof.
  induction l as [|y l IH]; simpl; [done|].
  destruct (cmp x y <=? 0)%Z; [done|].
  rewrite IH. apply Permutation_swap.
Qed.

(** Whatever the comparator, sorting rearranges and nothing more. *)
Lemma sorted_by_perm cmp l : sorted_by cmp l ≡ₚ l.
Proof.
  induction l as [|x l IH]; simpl; [done|].
  unfold sorted_by in *. simpl. by rewrite insert_by_perm, IH.
Qed.

Lemma sorted_by_length cmp l : length (sorted_by cmp l) = length l.
Proof. by rewrite sorted_by_perm. Qed.

Lemma by_createdAt_desc_dated a b :
  is_Some (time_value (get a "createdAt")) →
  is_Some (time_value (get b "createdAt")) →
  by_createdAt_desc a b = (created b - created a)%Z.
Proof. unfold by_createdAt_desc, created. by intros [ta ->] [tb ->]. Qed.

Lemma dated_perm l l' : l ≡ₚ l' → dated l → dated l'.
Proof. unfold dated. by intros ->. Qed.

Lemma insert_by_sorted x l :
  dated (x :: l) → StronglySorted newer_first l →
  StronglySorted newer_first (insert_by by_createdAt_desc x l).
Proof.
  intros Hd Hs. induction Hs as [|y l Hs IH Hy]; simpl.
  - repeat constructor.
  - apply Forall_cons in Hd as [Hx Hd]. pose proof Hd as [Hy' Hd']%Forall_cons.
    rewrite by_createdAt_desc_dated by done.
    destruct (Z.leb_spec (created y - created x) 0) as [Hle|Hgt].
    + constructor; [by constructor|]. constructor; [unfold newer_first; lia|].
      eapply Forall_impl; [exact Hy|]. unfold newer_first. intros; lia.
    + constructor; [apply IH; by constructor|].
      rewrite insert_by_perm. constructor; [unfold newer_first; lia|done].
Qed.

Lemma sorted_by_sorted l :
  dated l → StronglySorted newer_first (sorted_by by_createdAt_desc l).
Proof.
  induction l as [|x l IH]; intros Hd; [constructor|].
  pose proof Hd as [Hx Hl]%Forall_cons.
  change (sorted_by by_createdAt_desc (x :: l))
    with (insert_by by_createdAt_desc x (sorted_by by_createdAt_desc l)).
  apply insert_by_sorted; [|by apply IH].
  constructor; [done|]. eapply dated_perm; [|exact Hl]. symmetry. apply sorted_by_perm.
Qed.

Lemma insert_by_stable t x l :
  dated (x :: l) →
  filter (λ o, created o = t) (insert_by by_createdAt_desc x l)
  = filter (λ o, created o = t) (x :: l).
Proof.
  induction l as [|y l IH]; intros Hd; [done|]. simpl.
  apply Forall_cons in Hd as [Hx Hd]. pose proof Hd as [Hy' Hd']%Forall_cons.
  rewrite by_createdAt_desc_dated by done.
  destruct (Z.leb_spec (created y - created x) 0) as [Hle|Hgt]; [done|].
  rewrite (filter_cons _ y), IH by (by constructor).
  rewrite !filter_cons.
  repeat case_decide; try done; lia.
Qed.

(** The sort is stable: records of one instant keep their order. *)
Lemma sorted_by_stable t l :
  dated l →
  filter (λ o, created o = t) (sorted_by by_createdAt_desc l)
  = filter (λ o, created o = t) l.
Proof.
  induction l as [|x l IH]; intros Hd; [done|].
  pose proof Hd as [Hx Hl]%Forall_cons.
  change (sorted_by by_createdAt_desc (x :: l))
    with (insert_by by_createdAt_desc x (sorted_by by_createdAt_desc l)).
  rewrite insert_by_stable.
  - by rewrite !filter_cons, IH.
  - constructor; [done|]. eapply dated_perm; [|exact Hl]. symmetry. apply sorted_by_perm.
Qed.

Lemma StronglySorted_lookup {A} (R : relation A) l i j a b :
  StronglySorted R l → l !! i = Some a → l !! j = Some b → i < j → R a b.
Proof.
  intros Hs. revert i j. induction Hs as [|x l Hs IH Hx]; intros i j Hi Hj Hlt; [done|].
  destruct j as [|j]; [lia|]. simpl in Hj.
  destruct i as [|i]; simpl in Hi.
  - injection Hi as ->. rewrite Forall_forall in Hx. apply Hx.
    by eapply list_elem_of_lookup_2.
  - eapply IH; eauto. lia.
Qed.

Lemma StronglySorted_take {A} (R : relation A) n l :
  StronglySorted R l → StronglySorted R (take n l).
Proof.
  intros Hs. rewrite <- (take_drop n l) in Hs.
  by apply StronglySorted_app_1_l in Hs.
Qed.

(** ** The projection of the listing *)

Import Demo.

Lemma dom_project s : dom (project s) = five_fields.
Proof. unfold project, five_fields. rewrite !dom_insert_L, dom_singleton_L. set_solver. Qed.

Lemma project_createdAt s : get (project s) "createdAt" = get s "createdAt".
Proof. reflexivity. Qed.

Lemma created_project s : created (project s) = created s.
Proof. reflexivity. Qed.

Lemma dated_project l : dated l → dated (project <$> l).
Proof.
  unfold dated. rewrite Forall_fmap. intros Hd.
  eapply Forall_impl; [exact Hd|]. intros s Hs.
  simpl. by rewrite project_createdAt.
Qed.

(** ** Numbers as text *)

Lemma uint_units_inj d d' : uint_units d = uint_units d' → d = d'.
Proof.
  revert d'. induction d; intros []; simpl; intros E; try discriminate;
    try reflexivity; f_equal; apply IHd; congruence.
Qed.

Lemma decimal_inj n n' : decimal n = decimal n' → n = n'.
Proof.
  unfold decimal. intros E%uint_units_inj.
  by rewrite <- (DecimalN.Unsigned.of_to n), <- (DecimalN.Unsigned.of_to n'), E.
Qed.

(** ** Code units, lengths and trimming *)

Ltac units :=
  unfold is_space, is_letter, is_digit, is_high_surrogate, is_low_surrogate,
    is_presentation_selector in *;
  rewrite ?orb_true_iff, ?andb_true_iff, ?orb_false_iff, ?andb_false_iff,
    ?N.leb_le, ?N.leb_gt, ?N.eqb_eq, ?N.eqb_neq in *;
  lia.

Lemma space_not_selector c : is_space c = true → is_presentation_selector c = false.
Proof. units. Qed.
Lemma space_not_high c : is_space c = true → is_high_surrogate c = false.
Proof. units. Qed.
Lemma space_not_low c : is_space c = true → is_low_surrogate c = false.
Proof. units. Qed.
Lemma letter_not_selector c : is_letter c = true → is_presentation_selector c = false.
Proof. units. Qed.
Lemma letter_not_high c : is_letter c = true → is_high_surrogate c = false.
Proof. units. Qed.

Lemma space_plain c : is_space c = true → plain c.
Proof. unfold plain. intros. split; [|split]; revert H; units. Qed.
Lemma letter_plain c : is_letter c = true → plain c.
Proof. unfold plain. intros. split; [|split]; revert H; units. Qed.


Lemma presentationSequences_plain s : Forall plain s → presentationSequences s = 0.
Proof.
  unfold presentationSequences. induction 1 as [|c s [Hc _] _ IH]; [done|].
  rewrite filter_cons. rewrite decide_False by congruence. done.
Qed.

Lemma surrogatePairs_plain s : Forall plain s → surrogatePairs s = 0.
Proof.
  induction 1 as [|c s (_ & Hc & _) _ IH]; [done|].
  simpl. destruct s; [done|]. by rewrite Hc.
Qed.




Lemma len_plain s : Forall plain s → len s = Z.of_nat (length s).
Proof.
  intros Hs. unfold len. rewrite presentationSequences_plain, surrogatePairs_plain by done. lia.
Qed.

Lemma ltrim_split s : ∃ w, Forall (λ c, is_space c = true) w ∧ s = w ++ ltrim s.
Proof.
  induction s as [|c s (w & Hw & E)]; [by exists []|].
  simpl. destruct (is_space c) eqn:Hc.
  - exists (c :: w). split; [by constructor|]. simpl. by f_equal.
  - by exists [].
Qed.

Lemma rtrim_split s : ∃ w, Forall (λ c, is_space c = true) w ∧ s = rtrim s ++ w.
Proof.
  unfold rtrim. destruct (ltrim_split (rev s)) as (w & Hw & E).
  exists (rev w). split.
  - rewrite Forall_forall in *. intros c Hc. apply Hw.
    by rewrite list_elem_of_In, in_rev, rev_involutive, <- list_elem_of_In in Hc.
  - rewrite <- rev_app_distr, <- E. by rewrite rev_involutive.
Qed.

Lemma trim_split s :
  ∃ w1 w2, Forall (λ c, is_space c = true) w1 ∧ Forall (λ c, is_space c = true) w2
           ∧ s = w1 ++ trim s ++ w2.
Proof.
  destruct (ltrim_split s) as (w1 & H1 & E1).
  destruct (rtrim_split (ltrim s)) as (w2 & H2 & E2).
  exists w1, w2. repeat split; [done..|]. unfold trim. by rewrite <- E2.
Qed.



Lemma ltrim_ltrim s : ltrim (ltrim s) = ltrim s.
Proof.
  induction s as [|c s IH]; [done|]. simpl.
  destruct (is_space c) eqn:Hc; [done|]. simpl. by rewrite Hc.
Qed.

Lemma ltrim_snoc s c : is_space c = false → ltrim (s ++ [c]) = ltrim s ++ [c].
Proof.
  intros Hc. induction s as [|d s IH]; simpl; [by rewrite Hc|].
  by destruct (is_space d).
Qed.

Lemma rtrim_rtrim s : rtrim (rtrim s) = rtrim s.
Proof. unfold rtrim. by rewrite rev_involutive, ltrim_ltrim. Qed.

Lemma rtrim_cons c s : is_space c = false → rtrim (c :: s) = c :: rtrim s.
Proof.
  intros Hc. unfold rtrim. simpl. rewrite ltrim_snoc by done.
  by rewrite rev_app_distr.
Qed.

Lemma ltrim_head s : ltrim s = [] ∨ ∃ c t, ltrim s = c :: t ∧ is_space c = false.
Proof.
  induction s as [|c s IH]; [by left|]. simpl.
  destruct (is_space c) eqn:Hc; [done|]. right. eauto.
Qed.

Lemma trim_trim s : trim (trim s) = trim s.
Proof.
  unfold trim. destruct (ltrim_head s) as [->|(c & t & -> & Hc)]; [done|].
  rewrite rtrim_cons by done. simpl. rewrite Hc.
  rewrite <- rtrim_cons by done. apply rtrim_rtrim.
Qed.

(** ** The handlers of the demo server *)

Section DemoFacts.
Context `{Library}.

Lemma handle_submit req st :
  target req = POST_api_submit →
  handle req st =
    match errors_of (body req) with
    | [] =>
        (json 201 {[ "success" := JBool true;
                     "message" := JString (str "Data saved successfully");
                     "id" := JString (str "demo-" ++ decimal (submissionCounter st)) ]},
         {| submissions := submissions st ++ [userData_of req (submissionCounter st)];
            submissionCounter := submissionCounter st + 1 |})
    | _ :: _ =>
        ({| status := 400;
            fields := {[ "success" := JBool false;
                         "message" := JString (str "Validation failed") ]};
            errors := Some (errors_of (body req));
            data := None |}, st)
    end.
Proof.
  intros E. unfold handle, validate. rewrite E, run_validateInput.
  destruct (errors_of (body req)) as [|e l]; [|reflexivity].
  unfold submit_handler; cbn [body ip remoteAddress now].
  rewrite get_write_back, !get_write_back_ne, get_write_back by discriminate.
  reflexivity.
Qed.

Lemma handle_submissions req st :
  target req = GET_api_submissions →
  handle req st =
    ({| status := 200; fields := {[ "success" := JBool true ]}; errors := None;
        data := Some (take 50 (sorted_by by_createdAt_desc (project <$> submissions st))) |},
     st).
Proof. intros E. unfold handle. rewrite E. reflexivity. Qed.

Lemma handle_health req st :
  target req = GET_api_health →
  handle req st =
    (json 200 {[ "status" := JString (str "healthy");
                 "timestamp" := JString (toISOString (now req));
                 "database" := JString (str "demo-mode (in-memory)");
                 "submissions_count" := JNumber (Z.of_nat (length (submissions st))) ]},
     st).
Proof. intros E. unfold handle. rewrite E. reflexivity. Qed.

Lemma handle_unmatched req st :
  target req = unmatched →
  handle req st =
    (json 404 {[ "success" := JBool false;
                 "message" := JString (str "Route not found") ]}, st).
Proof. intros E. unfold handle. rewrite E. reflexivity. Qed.

Lemma bind_return {A B} (c : M A) (k : A → M B) m a m' :
  c m = (Return a, m') → (c ≫= k) m = k a m'.
Proof. unfold mbind, M_bind, bind. by intros ->. Qed.

Lemma arr_read_local i m l :
  locals m !! i = Some l → arr_read (local_ref i) m = (Return l, m).
Proof. unfold arr_read. by intros ->. Qed.

Lemma arr_map_submissions f m :
  arr_map f submissions_ref m =
    (Return (local_ref (length (locals m))),
     {| server := server m; locals := locals m ++ [f <$> submissions (server m)] |}).
Proof. reflexivity. Qed.

Lemma arr_sort_local cmp i m l :
  locals m !! i = Some l →
  arr_sort cmp (local_ref i) m =
    (Return (local_ref i),
     {| server := server m; locals := <[i := sorted_by cmp l]> (locals m) |}).
Proof.
  intros Hl. unfold arr_sort.
  erewrite bind_return by (by apply arr_read_local).
  unfold mbind, M_bind, bind, arr_write. by rewrite Hl.
Qed.

Lemma arr_slice_local a b i m l :
  locals m !! i = Some l →
  arr_slice a b (local_ref i) m =
    (Return (local_ref (length (locals m))),
     {| server := server m; locals := locals m ++ [take (b - a) (drop a l)] |}).
Proof.
  intros Hl. unfold arr_slice.
  by erewrite bind_return by (by apply arr_read_local).
Qed.

(** The listing reads [submissions] and writes only to the arrays it has
    allocated itself: the server state and the arrays allocated before
    are as they were. *)
Lemma submissions_handler_run m :
  ∃ r m',
    submissions_handler m = (Return r, m')
    ∧ server m' = server m
    ∧ status r = 200
    ∧ data r = Some (take 50 (sorted_by by_createdAt_desc (project <$> submissions (server m))))
    ∧ take (length (locals m)) (locals m') = locals m.
Proof.
  unfold submissions_handler, try_catch.
  erewrite bind_return by apply arr_map_submissions.
  erewrite bind_return
    by (apply arr_sort_local; cbn [locals]; by apply list_lookup_middle).
  erewrite bind_return.
  2:{ apply arr_slice_local. cbn [locals]. rewrite insert_app_r_alt by lia.
      rewrite Nat.sub_diag. by apply list_lookup_middle. }
  erewrite bind_return.
  2:{ apply arr_read_local. cbn [locals]. apply list_lookup_middle.
      by rewrite length_insert. }
  eexists _, _. split; [reflexivity|]. cbn [server locals status data].
  repeat split.
  rewrite take_app_le by (rewrite length_insert, length_app; lia).
  rewrite insert_app_r_alt by lia. rewrite take_app_le by lia.
  by rewrite firstn_all.
Qed.

Lemma handle_counter req st r st' :
  handle req st = (r, st') →
  (status r = 201
   ∧ get (fields r) "id" = JString (str "demo-" ++ decimal (submissionCounter st))
   ∧ submissionCounter st' = (submissionCounter st + 1)%N
   ∧ submissions st' = submissions st ++ [userData_of req (submissionCounter st)]
   ∧ target req = POST_api_submit ∧ errors_of (body req) = [])
  ∨ (status r ≠ 201 ∧ st' = st).
Proof.
  destruct (target req) eqn:E.
  - rewrite handle_submit by done.
    destruct (errors_of (body req)); intros [= <- <-]; [left|right]; done.
  - rewrite handle_submissions by done. intros [= <- <-]. by right.
  - rewrite handle_health by done. intros [= <- <-]. by right.
  - rewrite handle_unmatched by done. intros [= <- <-]. by right.
Qed.

End DemoFacts.

(** ** The rules of the chain, read on the submitted text *)

Lemma forallb_class (s : jsstring) :
  forallb (λ c, is_letter c || is_space c) s = true
  ↔ Forall (λ c, is_letter c = true ∨ is_space c = true) s.
Proof.
  induction s as [|c s IH]; simpl.
  - split; [constructor|done].
  - rewrite andb_true_iff, orb_true_iff, IH, Forall_cons. done.
Qed.

Lemma class_plain (s : jsstring) :
  Forall (λ c, is_letter c = true ∨ is_space c = true) s → Forall plain s.
Proof.
  intros Hs. eapply Forall_impl; [exact Hs|].
  intros c [?|?]; [by apply letter_plain|by apply space_plain].
Qed.

Lemma matches_letters_and_spaces_spec (s : jsstring) :
  matches_letters_and_spaces s = true
  ↔ s ≠ [] ∧ Forall (λ c, is_letter c = true ∨ is_space c = true) s.
Proof.
  unfold matches_letters_and_spaces.
  rewrite andb_true_iff, negb_true_iff, bool_decide_eq_false, forallb_class. done.
Qed.

Section Rules.
Context `{Library}.

(** On letters and white space [isLength] counts code units, so the three
    validators of [name] come down to two conditions on the text. *)
Lemma rule_name_spec (s : jsstring) :
  rule Name s = true
  ↔ 2 ≤ length s ≤ 100 ∧ Forall (λ c, is_letter c = true ∨ is_space c = true) s.
Proof.
  unfold rule, notEmpty, isEmpty, isLength.
  rewrite !andb_true_iff, negb_true_iff, bool_decide_eq_false,
    matches_letters_and_spaces_spec, !Z.leb_le.
  split.
  - intros [[Hne Hl] [_ Hc]]. rewrite (len_plain s) in Hl by (by apply class_plain).
    split; [lia|done].
  - intros [Hl Hc]. rewrite (len_plain s) by (by apply class_plain).
    repeat split; try lia; try done. intros ->. simpl in Hl. lia.
Qed.

Lemma valid_rule b i : errors_of b = [] → rule i (submitted b i) = true.
Proof. intros Hv%errors_of_nil. apply Hv. Qed.

(** ** Runs of the demo server *)

Lemma js_or_unknown a b : truthy (js_or (js_or a b) (JString (str "unknown"))) = true.
Proof.
  unfold js_or. destruct (truthy a) eqn:Ea.
  - by rewrite Ea.
  - destruct (truthy b) eqn:Eb; [by rewrite Eb|done].
Qed.

(** The array grows by one record for each 201 response. *)
Lemma serve_length reqs st :
  length (submissions (serve reqs st).2)
  = length (submissions st) + length (returned_ids (serve reqs st).1).
Proof.
  revert st. induction reqs as [|req reqs IH]; intros st; simpl; [lia|].
  destruct (handle req st) as [r st1] eqn:E1.
  specialize (IH st1). destruct (serve reqs st1) as [rs st2]. cbn [fst snd] in *.
  rewrite IH. unfold returned_ids. cbn [omap list_omap].
  apply handle_counter in E1 as [(H201 & _ & _ & Hs & _)|[Hn ->]].
  - rewrite decide_True by done. rewrite Hs, length_app. simpl. lia.
  - rewrite decide_False by done. done.
Qed.

(** Every record the server stores carries a [Date]. *)
Lemma handle_dated req st :
  dated (submissions st) → dated (submissions (handle req st).2).
Proof.
  intros Hd. destruct (handle req st) as [r st'] eqn:E. cbn [snd].
  apply handle_counter in E as [(_ & _ & _ & -> & _)|[_ ->]]; [|done].
  unfold dated. rewrite Forall_app. split; [done|].
  constructor; [|constructor]. by eexists.
Qed.

Lemma serve_dated reqs st :
  dated (submissions st) → dated (submissions (serve reqs st).2).
Proof.
  revert st. induction reqs as [|req reqs IH]; intros st Hd; [done|]. simpl.
  pose proof (handle_dated req st Hd) as Hd1.
  destruct (handle req st) as [r st1]. specialize (IH st1 Hd1).
  by destruct (serve reqs st1).
Qed.

Lemma reachable_dated reqs : dated (submissions (serve reqs initial).2).
Proof. apply serve_dated. constructor. Qed.

(** The stored address is what [normalizeEmail] made of an address that
    [isEmail] accepts, and [isLength] counts at most 255 in it. *)
Lemma stored_email_is_normalized req st r st' :
  handle req st = (r, st') → status r = 201 →
  let e := submitted (body req) Email in
  ∃ rec, submissions st' = submissions st ++ [rec]
         ∧ get rec "email" = normalizeEmail e
         ∧ isEmail e = true
         ∧ (len (toString (normalizeEmail e)) ≤ 255)%Z.
Proof.
  intros [(_ & _ & _ & Hs & _ & Hv)|[? _]]%handle_counter H201; [|done].
  intros e. exists (userData_of req (submissionCounter st)).
  split; [done|]. split; [reflexivity|].
  apply (valid_rule _ Email) in Hv. fold e in Hv. simpl in Hv.
  apply andb_true_iff in Hv as [He Hl]. split; [done|].
  unfold isLength in Hl. apply andb_true_iff in Hl as [_ ?%Z.leb_le]. done.
Qed.

(** ** The MongoDB listing *)

Lemma mongo_find_recent d l :
  Mongo.find_recent d = Some l →
  l = take 50 (delete "ipAddress" <$> sorted_by by_createdAt_desc (Mongo.documents d)).
Proof. unfold Mongo.find_recent. destruct (_ =? _)%Z; congruence. Qed.

Lemma mongo_listing_data d items :
  data (Mongo.submissions_handler d) = Some items →
  items = take 50 (delete "ipAddress" <$> sorted_by by_createdAt_desc (Mongo.documents d)).
Proof.
  unfold Mongo.submissions_handler.
  destruct (Mongo.find_recent d) as [l|] eqn:E; [|done].
  cbn [data]. intros [= <-]. by apply mongo_find_recent.
Qed.

End Rules.

(** * The claims of the specification *)

Section Claims.
Context `{Library}.



(** C3 (as amended).  In every state whose records carry a [Date] (every
    state the server reaches), GET /api/submissions returns the first 50
    of the stored records sorted by [createdAt] descending; the sort is
    stable, so records with equal [createdAt] appear in insertion order;
    and of two listed records the one with the strictly later [createdAt]
    comes first. *)
Theorem listing_is_newest_first_and_stable req st :
  target req = GET_api_submissions → dated (submissions st) →
  ∃ sorted,
    data (handle req st).1 = Some (take 50 sorted)
    ∧ sorted ≡ₚ project <$> submissions st
    ∧ StronglySorted newer_first sorted
    ∧ (∀ t, filter (λ o, created o = t) sorted
            = filter (λ o, created o = t) (project <$> submissions st))
    ∧ (∀ i j a b, take 50 sorted !! i = Some a → take 50 sorted !! j = Some b →
                  (created a < created b)%Z → j < i).
Proof.
  intros Ht Hd%dated_project. rewrite handle_submissions by done.
  set (l := project <$> submissions st) in *.
  exists (sorted_by by_createdAt_desc l). cbn [fst data].
  split; [done|]. split; [apply sorted_by_perm|].
  pose proof (sorted_by_sorted l Hd) as Hs.
  split; [done|]. split; [intros; by apply sorted_by_stable|].
  intros i j a b Hi Hj Hlt.
  apply (StronglySorted_take _ 50) in Hs.
  destruct (decide (i < j)) as [Hij|Hij].
  - pose proof (StronglySorted_lookup _ _ _ _ _ _ Hs Hi Hj Hij) as Hr.
    unfold newer_first in Hr. lia.
  - destruct (decide (i = j)) as [->|]; [|lia].
    rewrite Hi in Hj. injection Hj as ->. lia.
Qed.

(** C4.  No item of the [data] array of a successful GET /api/submissions
    has an [ipAddress] field, in the demo server and in the MongoDB
    server, although every record POST /api/submit stores has one. *)
Theorem listing_has_no_ipAddress :
  (∀ req st items,
     target req = GET_api_submissions → data (handle req st).1 = Some items →
     Forall (λ o, o !! "ipAddress" = None) items)
  ∧ (∀ d items,
       data (Mongo.submissions_handler d) = Some items →
       Forall (λ o, o !! "ipAddress" = None) items)
  ∧ (∀ req st r st',
       handle req st = (r, st') → status r = 201 →
       ∃ rec v, submissions st' = submissions st ++ [rec]
                ∧ rec !! "ipAddress" = Some v ∧ truthy v = true).
Proof.
  split; [|split].
  - intros req st items Ht. rewrite handle_submissions by done. cbn [fst data].
    intros [= <-]. apply Forall_take. rewrite Forall_forall. intros o Ho.
    rewrite sorted_by_perm in Ho. by apply list_elem_of_fmap in Ho as (s & -> & _).
  - intros d items ->%mongo_listing_data. apply Forall_take.
    rewrite Forall_fmap. rewrite Forall_forall. intros o _. simpl.
    apply lookup_delete_eq.
  - intros req st r st' [(_ & _ & _ & Hs & _)|[? _]]%handle_counter H201; [|done].
    eexists _, _. split; [exact Hs|]. split; [reflexivity|]. apply js_or_unknown.
Qed.

(** C5.  GET /api/submissions returns the smaller of 50 and the number of
    stored records: at most 50 items in every state, and exactly 50 when
    60 records are stored, in particular after a run with 60 successful
    submissions.  The MongoDB listing has the same size. *)
Theorem listing_has_at_most_50_items :
  (∀ req st,
     target req = GET_api_submissions →
     ∃ items, data (handle req st).1 = Some items
              ∧ length items = Nat.min 50 (length (submissions st))
              ∧ length items ≤ 50
              ∧ (length (submissions st) = 60 → length items = 50))
  ∧ (∀ reqs req,
       target req = GET_api_submissions →
       length (returned_ids (serve reqs initial).1) = 60 →
       ∃ items, data (handle req (serve reqs initial).2).1 = Some items
                ∧ length items = 50)
  ∧ (∀ d items,
       data (Mongo.submissions_handler d) = Some items →
       length items = Nat.min 50 (length (Mongo.documents d))).
Proof.
  assert (∀ req st, target req = GET_api_submissions →
            ∃ items, data (handle req st).1 = Some items
                     ∧ length items = Nat.min 50 (length (submissions st))) as Hmin.
  { intros req st Ht. rewrite handle_submissions by done. eexists. split; [reflexivity|].
    by rewrite length_take, sorted_by_length, length_fmap. }
  split; [|split].
  - intros req st Ht. destruct (Hmin req st Ht) as (items & -> & Hl).
    exists items. repeat split; [done|lia|lia].
  - intros reqs req Ht H60. destruct (Hmin req (serve reqs initial).2 Ht) as (items & -> & Hl).
    exists items. split; [done|]. rewrite serve_length, H60 in Hl. simpl in Hl. lia.
  - intros d items ->%mongo_listing_data.
    by rewrite length_take, length_fmap, sorted_by_length.
Qed.



(** C8 (as amended).  GET /api/health answers 200 in every state.  In the
    demo server the body has the fields [status] ("healthy"), [timestamp]
    (the current time), [database] (always "demo-mode (in-memory)") and
    [submissions_count] (the number of stored records).  In the MongoDB
    server it has [status], [timestamp] and [database], which is
    "connected" when the connection is up and "disconnected" otherwise,
    and no count. *)
Theorem health_reports_database_and_count :
  (∀ req st,
     target req = GET_api_health →
     let '(r, st') := handle req st in
     st' = st ∧ status r = 200
     ∧ dom (fields r) = {[ "status"; "timestamp"; "database"; "submissions_count" ]}
     ∧ get (fields r) "status" = JString (str "healthy")
     ∧ get (fields r) "timestamp" = JString (toISOString (now req))
     ∧ get (fields r) "database" = JString (str "demo-mode (in-memory)")
     ∧ get (fields r) "submissions_count" = JNumber (Z.of_nat (length (submissions st))))
  ∧ (∀ req d,
       let r := Mongo.health_handler req d in
       status r = 200
       ∧ dom (fields r) = {[ "status"; "timestamp"; "database" ]}
       ∧ get (fields r) "status" = JString (str "healthy")
       ∧ get (fields r) "timestamp" = JString (toISOString (now req))
       ∧ (Mongo.readyState d = 1%Z → get (fields r) "database" = JString (str "connected"))
       ∧ (Mongo.readyState d ≠ 1%Z →
          get (fields r) "database" = JString (str "disconnected"))).
Proof.
  split.
  - intros req st Ht. rewrite handle_health by done. repeat split.
  - intros req d r. subst r. unfold Mongo.health_handler. cbn [status fields json].
    split; [done|]. split; [rewrite !dom_insert_L, dom_singleton_L; set_solver|].
    split; [done|]. split; [done|].
    split; intros Hr.
    + by rewrite Hr.
    + apply Z.eqb_neq in Hr. by rewrite Hr.
Qed.

(** C10.  In the demo server a GET /api/submissions is answered 200 with
    items that each have exactly the fields [_id], [name], [email],
    [message] and [createdAt], whatever fields the stored records have;
    the handler leaves [submissions] and [submissionCounter] as they were,
    and it writes to no array but the ones it allocates. *)
Theorem listing_items_have_five_fields req st :
  target req = GET_api_submissions →
  ∃ items,
    handle req st =
      ({| status := 200; fields := {[ "success" := JBool true ]};
          errors := None; data := Some items |}, st)
    ∧ Forall (λ o, dom o = five_fields) items
    ∧ ∀ m, server (submissions_handler m).2 = server m
           ∧ take (length (locals m)) (locals (submissions_handler m).2) = locals m.
Proof.
  intros Ht. rewrite handle_submissions by done. eexists. split; [reflexivity|].
  split.
  - apply Forall_take. rewrite Forall_forall. intros o Ho.
    rewrite sorted_by_perm in Ho. apply list_elem_of_fmap in Ho as (s & -> & _).
    apply dom_project.
  - intros m. destruct (submissions_handler_run m) as (r & m' & -> & ? & _ & _ & ?).
    done.
Qed.

End Claims.

(** * The server on concrete requests

    The server runs with [runtime] here. *)

(** ** The library on small inputs *)

Example trim_padded : trim (str "   hello   ") = str "hello".
Proof. reflexivity. Qed.

Example trim_blank : trim (str "          ") = [].
Proof. reflexivity. Qed.

(** A surrogate pair and a variation selector: three units, length one. *)
Example len_of_a_pair : len [0xD83D; 0xDE00; 0xFE0F]%N = 1%Z.
Proof. reflexivity. Qed.

Example decimal_42 : decimal 42 = str "42".
Proof. reflexivity. Qed.

Example isEmail_accepts :
  isEmail <$> [str "JANE@Example.com"; str "jane@example.com"; str "+x@gmail.com"]
  = [true; true; true].
Proof. vm_compute. reflexivity. Qed.

Example isEmail_rejects :
  isEmail <$> [str "not-an-email"; str ""; str " jane@example.com"; str "jane@example"]
  = [false; false; false; false].
Proof. vm_compute. reflexivity. Qed.

Example normalizeEmail_lowers :
  normalizeEmail (str "JANE@Example.com") = JString (str "jane@example.com").
Proof. vm_compute. reflexivity. Qed.

Example normalizeEmail_gmail :
  normalizeEmail (str "J.Doe+news@GoogleMail.com") = JString (str "jdoe@gmail.com").
Proof. vm_compute. reflexivity. Qed.

Example normalizeEmail_empty_local_part :
  normalizeEmail (str "+x@gmail.com") = JBool false.
Proof. vm_compute. reflexivity. Qed.

Example toISOString_readme :
  toISOString 1705314600000 = str "2024-01-15T10:30:00.000Z".
Proof. vm_compute. reflexivity. Qed.

(** The three violations the specification gives as examples, in one
    payload: each input gets its errors, in the order of the chains. *)
Example errors_of_the_three_examples :
  (λ e, (path e, msg e)) <$> errors_of (body (post "A" "not-an-email" "short" 0))
  = [ ("name", "Name must be between 2 and 100 characters");
      ("email", "Please enter a valid email address");
      ("message", "Message must be between 10 and 1000 characters") ].
Proof. vm_compute. reflexivity. Qed.

(** ** The claims on concrete requests *)





(** C3, counterexample: two submissions handled in the same millisecond
    are listed in the order of their insertion, the first one first. *)
Lemma same_instant_keeps_insertion_order :
  status <$> same_instant_run = [201; 201; 200]
  ∧ listed_field "_id" <$> same_instant_run !! 2
    = Some (Some [JString (str "demo-1"); JString (str "demo-2")])
  ∧ listed_field "createdAt" <$> same_instant_run !! 2
    = Some (Some [JDate 1700000000000; JDate 1700000000000]).
Proof. vm_compute. repeat split. Qed.

(** C3, witness: the state after the two submissions of one instant. *)
Lemma listing_is_newest_first_and_stable_witness :
  dated (submissions (serve [first_of_instant; second_of_instant] initial).2)
  ∧ ∃ sorted,
      data (handle (list_request 1700000000001)
              (serve [first_of_instant; second_of_instant] initial).2).1
      = Some (take 50 sorted)
      ∧ StronglySorted newer_first sorted.
Proof.
  assert (dated (submissions (serve [first_of_instant; second_of_instant] initial).2))
    as Hd by (unfold dated; refine (bool_decide_unpack _ _); vm_compute; exact I).
  split; [exact Hd|].
  destruct (listing_is_newest_first_and_stable (list_request 1700000000001)
              (serve [first_of_instant; second_of_instant] initial).2 eq_refl Hd)
    as (sorted & Hdata & _ & Hs & _).
  exists sorted. split; [exact Hdata|exact Hs].
Defined.

(** C4, witness: a listing after the example of the specification, and a
    listing of a collection of one document. *)
Lemma listing_has_no_ipAddress_witness :
  (∃ items, data (handle (list_request 1700000000001) (handle jane initial).2).1 = Some items
            ∧ Forall (λ o, o !! "ipAddress" = None) items)
  ∧ (∃ items, data (Mongo.submissions_handler one_document) = Some items
              ∧ Forall (λ o, o !! "ipAddress" = None) items)
  ∧ (status (handle jane initial).1 = 201
     ∧ ∃ rec v, submissions (handle jane initial).2 = submissions initial ++ [rec]
                ∧ rec !! "ipAddress" = Some v ∧ truthy v = true).
Proof.
  destruct listing_has_no_ipAddress as (Hdemo & Hmongo & Hstored).
  assert (status (handle jane initial).1 = 201) as H201 by (vm_compute; reflexivity).
  split; [|split].
  - eexists. split; [reflexivity|].
    apply (Hdemo (list_request 1700000000001) (handle jane initial).2);
      reflexivity.
  - eexists. split; [reflexivity|].
    apply (Hmongo one_document). reflexivity.
  - split; [exact H201|].
    apply (Hstored jane initial (handle jane initial).1 (handle jane initial).2);
      [by destruct (handle jane initial)|exact H201].
Defined.

(** C5, witness: a listing after 60 submissions. *)
Lemma listing_has_at_most_50_items_witness :
  (∃ items, data (handle (list_request 1700000000001) (handle jane initial).2).1 = Some items
            ∧ length items = Nat.min 50 (length (submissions (handle jane initial).2)))
  ∧ (length (returned_ids (serve (replicate 60 jane) initial).1) = 60
     ∧ ∃ items, data (handle (list_request 1700000000001)
                        (serve (replicate 60 jane) initial).2).1 = Some items
                ∧ length items = 50)
  ∧ (∃ items, data (Mongo.submissions_handler one_document) = Some items
              ∧ length items = Nat.min 50 (length (Mongo.documents one_document))).
Proof.
  destruct listing_has_at_most_50_items as (Hdemo & Hrun & Hmongo).
  split; [|split].
  - destruct (Hdemo (list_request 1700000000001) (handle jane initial).2 eq_refl)
      as (items & Hdata & Hlen & _).
    exists items. split; [exact Hdata|exact Hlen].
  - assert (length (returned_ids (serve (replicate 60 jane) initial).1) = 60)
      as H60 by (vm_compute; reflexivity).
    split; [exact H60|].
    apply (Hrun (replicate 60 jane) (list_request 1700000000001) eq_refl H60).
  - eexists. split; [reflexivity|].
    apply (Hmongo one_document). reflexivity.
Defined.



(** C8, counterexample: the body of the demo health check has no
    [database_status] field and its [database] field is not "available";
    the body of the MongoDB health check has neither [database_status]
    nor [submissions_count]. *)
Lemma health_has_no_database_status :
  fields (handle (health_request 0) initial).1 !! "database_status" = None
  ∧ get (fields (handle (health_request 0) initial).1) "database"
    = JString (str "demo-mode (in-memory)")
  ∧ fields (Mongo.health_handler (health_request 0) one_document) !! "database_status"
    = None
  ∧ fields (Mongo.health_handler (health_request 0) one_document) !! "submissions_count"
    = None.
Proof. vm_compute. repeat split. Qed.

(** C8, witness: the health check in the initial state, and on a
    connected database. *)
Lemma health_reports_database_and_count_witness :
  (let '(r, st') := handle (health_request 0) initial in
   st' = initial ∧ status r = 200
   ∧ get (fields r) "submissions_count" = JNumber 0)
  ∧ get (fields (Mongo.health_handler (health_request 0) one_document)) "database"
    = JString (str "connected").
Proof.
  destruct health_reports_database_and_count as (Hdemo & Hmongo).
  split.
  - pose proof (Hdemo (health_request 0) initial eq_refl) as Hw.
    destruct (handle (health_request 0) initial) as [r st'].
    destruct Hw as (Hst & Hs & _ & _ & _ & _ & Hc).
    split; [exact Hst|]. split; [exact Hs|exact Hc].
  - destruct (Hmongo (health_request 0) one_document) as (_ & _ & _ & _ & Hup & _).
    apply Hup. reflexivity.
Defined.

(** C9 at the failing input.  The address "+x@gmail.com" passes [isEmail];
    [normalizeEmail] removes the subaddress, is left with an empty local
    part and returns [false]; the submission is answered 201, the record
    is stored with the email [false], and the listing shows it. *)
Theorem gmail_subaddress_is_stored_as_false :
  status <$> gmail_run.1 = [201; 200]
  ∧ stored_field "email" gmail_run.2 = [JBool false]
  ∧ listed_field "email" <$> gmail_run.1 !! 1 = Some (Some [JBool false]).
Proof. vm_compute. repeat split. Qed.

(** The example of C9: the submission is answered 201 and the listing
    shows the address in lower case. *)
Lemma jane_doe_example :
  status <$> jane_run.1 = [201; 200]
  ∧ listed_field "email" <$> jane_run.1 !! 1
    = Some (Some [JString (str "jane@example.com")]).
Proof. vm_compute. repeat split. Qed.

(** C10, witness: a listing after the example of the specification. *)
Lemma listing_items_have_five_fields_witness :
  ∃ items,
    handle (list_request 1700000000001) (handle jane initial).2 =
      ({| status := 200; fields := {[ "success" := JBool true ]};
          errors := None; data := Some items |}, (handle jane initial).2)
    ∧ Forall (λ o, dom o = five_fields) items.
Proof.
  destruct (listing_items_have_five_fields (list_request 1700000000001)
              (handle jane initial).2 eq_refl) as (items & Hr & Hf & _).
  exists items. split; [exact Hr|exact Hf].
Defined.

(** * Further properties of the code *)

(** ** The demo server *)

Lemma complaint_elem ok v m p e :
  e ∈ complaint ok v m p → ok = false ∧ path e = p ∧ location e = "body".
Proof.
  destruct ok; simpl; [by intros ?%elem_of_nil|]. by intros ->%list_elem_of_singleton.
Qed.

Lemma insert_by_newest_last x l :
  dated (x :: l) → Forall (λ y, (created x < created y)%Z) l →
  insert_by by_createdAt_desc x l = l ++ [x].
Proof.
  induction l as [|y l IH]; intros Hd Hx; [done|]. simpl.
  apply Forall_cons in Hd as [Hdx Hd]. pose proof Hd as [Hdy Hdl]%Forall_cons.
  apply Forall_cons in Hx as [Hy Hx].
  rewrite by_createdAt_desc_dated by done.
  destruct (Z.leb_spec (created y - created x) 0) as [Hle|Hgt]; [lia|].
  f_equal. apply IH; [by constructor|done].
Qed.

(** Sorting records that came in at strictly increasing instants reverses
    them. *)
Lemma sorted_by_ascending l :
  dated l → ascending l → sorted_by by_createdAt_desc l = reverse l.
Proof.
  intros Hd Ha. induction Ha as [|x l Ha IH Hx]; [done|].
  pose proof Hd as [Hdx Hdl]%Forall_cons.
  change (sorted_by by_createdAt_desc (x :: l))
    with (insert_by by_createdAt_desc x (sorted_by by_createdAt_desc l)).
  rewrite IH by done. rewrite reverse_cons. apply insert_by_newest_last.
  - constructor; [done|]. unfold dated. by rewrite Forall_reverse.
  - by rewrite Forall_reverse.
Qed.

Lemma ascending_project l : ascending l → ascending (project <$> l).
Proof.
  unfold ascending. induction 1 as [|x l Hs IH Hx]; simpl; constructor; [done|].
  rewrite Forall_fmap. eapply Forall_impl; [exact Hx|]. intros y Hy. simpl.
  by rewrite !created_project.
Qed.

Section DemoExtras.
Context `{Library}.

Lemma serve_numbering reqs st :
  submissionCounter st = (N.of_nat (length (submissions st)) + 1)%N →
  stored_field "_id" st = demo_id <$> seq 1 (length (submissions st)) →
  let st' := (serve reqs st).2 in
  submissionCounter st' = (N.of_nat (length (submissions st')) + 1)%N
  ∧ stored_field "_id" st' = demo_id <$> seq 1 (length (submissions st')).
Proof.
  revert st. induction reqs as [|req reqs IH]; intros st Hc Hi; [done|]. simpl.
  destruct (handle req st) as [r st1] eqn:E1.
  specialize (IH st1). destruct (serve reqs st1) as [rs st2]. cbn [snd] in *.
  apply handle_counter in E1 as [(_ & _ & Hc1 & Hs1 & _)|[_ ->]]; [|by apply IH].
  apply IH.
  - rewrite Hc1, Hs1, length_app, Hc, Nat2N.inj_add. done.
  - unfold stored_field in *. rewrite Hs1, fmap_app, Hi, length_app. simpl.
    rewrite Nat.add_1_r, seq_S, fmap_app. simpl. f_equal.
    unfold demo_id. rewrite Hc, Nat2N.inj_succ, N.add_1_r. reflexivity.
Qed.


(** X2.  In every state the demo server reaches from its initial state,
    the counter is the number of stored records plus one and the k-th
    stored record has the [_id] "demo-k": the stored ids are pairwise
    distinct. *)
Theorem stored_ids_are_numbered reqs :
  let st := (serve reqs initial).2 in
  submissionCounter st = (N.of_nat (length (submissions st)) + 1)%N
  ∧ stored_field "_id" st = demo_id <$> seq 1 (length (submissions st))
  ∧ NoDup (stored_field "_id" st).
Proof.
  destruct (serve_numbering reqs initial eq_refl eq_refl) as [Hc Hi].
  split; [done|]. split; [done|]. rewrite Hi.
  apply NoDup_fmap_2; [|apply NoDup_seq].
  intros j k E. unfold demo_id in E. injection E as E%decimal_inj. lia.
Qed.

(** X3.  After any run from the initial state, the [submissions_count] of
    the health check is the number of 201 responses of the run. *)
Theorem health_counts_accepted_submissions reqs req :
  target req = GET_api_health →
  get (fields (handle req (serve reqs initial).2).1) "submissions_count"
  = JNumber (Z.of_nat (length (returned_ids (serve reqs initial).1))).
Proof.
  intros Ht. rewrite handle_health by done. cbn [fst fields json].
  by rewrite serve_length.
Qed.

(** X4.  The record a 201 appends has exactly the six fields [_id],
    [name], [email], [message], [ipAddress] and [createdAt]; its [_id] is
    the [id] of the response, its [name] is the submitted value as it
    came, its [createdAt] is the time of the request, and its [ipAddress]
    is [req.ip], or the remote address of the connection when that is
    missing, or "unknown" when both are. *)
Theorem stored_record_fields req st r st' :
  handle req st = (r, st') → status r = 201 →
  ∃ rec, submissions st' = submissions st ++ [rec]
         ∧ dom rec = six_fields
         ∧ get rec "_id" = get (fields r) "id"
         ∧ get rec "name" = get (body req) "name"
         ∧ get rec "createdAt" = JDate (now req)
         ∧ get rec "ipAddress"
           = (if truthy (ip req) then ip req
              else if truthy (remoteAddress req) then remoteAddress req
              else JString (str "unknown")).
Proof.
  intros [(_ & Hid & _ & Hs & _)|[? _]]%handle_counter H201; [|done].
  exists (userData_of req (submissionCounter st)). split; [done|].
  split.
  { unfold userData_of, six_fields. rewrite !dom_insert_L, dom_singleton_L. set_solver. }
  split; [by rewrite Hid|]. split; [done|]. split; [done|].
  change (get (userData_of req (submissionCounter st)) "ipAddress")
    with (js_or (js_or (ip req) (remoteAddress req)) (JString (str "unknown"))).
  unfold js_or. destruct (truthy (ip req)) eqn:E1.
  - by rewrite E1.
  - by destruct (truthy (remoteAddress req)) eqn:E2; rewrite ?E2.
Qed.

(** X5.  The chains do not stop at the first failure: a name that is
    missing or empty gets the three errors of its chain, in their order,
    and a message that is missing or empty gets the two errors of
    its chain. *)
Theorem empty_inputs_get_every_error (b : obj) :
  (submitted b Name = [] →
   msg <$> (run_chain name_chain b).2
   = [ "Name is required";
       "Name must be between 2 and 100 characters";
       "Name can only contain letters and spaces" ])
  ∧ (submitted b Message = [] →
     msg <$> (run_chain message_chain b).2
     = [ "Message is required";
         "Message must be between 10 and 1000 characters" ])
  ∧ (b !! "name" = None → submitted b Name = [])
  ∧ (b !! "message" = None → submitted b Message = []).
Proof.
  split; [|split; [|split]].
  - rewrite run_name_chain. unfold submitted, name_errors. cbn [key snd]. by intros ->.
  - rewrite run_message_chain. unfold submitted, message_errors. cbn [key snd]. by intros ->.
  - unfold submitted, get. cbn [key]. by intros ->.
  - unfold submitted, get. cbn [key]. by intros ->.
Qed.

(** X6.  Every error [validateInput] reports is located in the body and
    carries the name of one of the three inputs, and the rule of that
    input is violated: no error is reported for an input that meets its
    rule, nor for any other field. *)
Theorem errors_name_violated_inputs (b : obj) e :
  e ∈ (run_chains validateInput b).2 →
  ∃ i, path e = key i ∧ violates b i ∧ location e = "body".
Proof.
  rewrite run_validateInput. cbn [snd]. unfold errors_of, violates.
  rewrite !elem_of_app. intros [He|[He|He]].
  - exists Name. unfold name_errors in He. rewrite !elem_of_app in He.
    unfold rule, submitted. cbn [key].
    destruct He as [He|[He|He]]; apply complaint_elem in He as (Hf & -> & ->);
      rewrite Hf, ?andb_false_r; done.
  - exists Email. unfold email_errors in He. rewrite !elem_of_app in He.
    unfold rule, submitted. cbn [key].
    destruct He as [He|He]; apply complaint_elem in He as (Hf & -> & ->);
      rewrite Hf, ?andb_false_r; done.
  - exists Message. unfold message_errors in He. rewrite !elem_of_app in He.
    unfold rule, submitted. cbn [key].
    destruct He as [He|He]; apply complaint_elem in He as (Hf & -> & ->);
      rewrite Hf, ?andb_false_r; done.
Qed.

(** X7.  Every item of a listing is the projection of a stored record.
    With at most 50 stored records the listing shows each of them once.
    With more, in a state whose records carry a [Date], the records left
    out are no newer than any record listed. *)
Theorem listing_keeps_the_newest req st :
  target req = GET_api_submissions →
  ∃ items,
    data (handle req st).1 = Some items
    ∧ Forall (λ o, ∃ s, s ∈ submissions st ∧ o = project s) items
    ∧ (length (submissions st) ≤ 50 → items ≡ₚ project <$> submissions st)
    ∧ (dated (submissions st) →
       ∃ rest, items ++ rest ≡ₚ project <$> submissions st
               ∧ ∀ o o', o ∈ items → o' ∈ rest → (created o' ≤ created o)%Z).
Proof.
  intros Ht. rewrite handle_submissions by done. cbn [fst data].
  set (l := project <$> submissions st).
  eexists. split; [reflexivity|]. split; [|split].
  - apply Forall_take. rewrite Forall_forall. intros o Ho.
    rewrite sorted_by_perm in Ho. apply list_elem_of_fmap in Ho as (s & -> & Hs). eauto.
  - intros Hl. rewrite take_ge; [apply sorted_by_perm|].
    unfold l. by rewrite sorted_by_length, length_fmap.
  - intros Hd%dated_project. fold l in Hd.
    exists (drop 50 (sorted_by by_createdAt_desc l)). split.
    + rewrite take_drop. apply sorted_by_perm.
    + intros o o' Ho Ho'. pose proof (sorted_by_sorted l Hd) as Hs.
      rewrite <- (take_drop 50 (sorted_by by_createdAt_desc l)) in Hs.
      by apply (StronglySorted_app_1_elem_of _ _ _ _ _ Hs).
Qed.

(** X8.  When every stored record is strictly newer than the ones stored
    before it, the listing is the stored records in reverse order of
    insertion, cut after 50: the last 50 submissions, the latest first. *)
Theorem listing_of_ascending_store req st :
  target req = GET_api_submissions →
  dated (submissions st) → ascending (submissions st) →
  data (handle req st).1 = Some (take 50 (reverse (project <$> submissions st))).
Proof.
  intros Ht Hd Ha. rewrite handle_submissions by done. cbn [fst data].
  rewrite sorted_by_ascending; [done|by apply dated_project|by apply ascending_project].
Qed.

(** X9.  The server reads [name], [email] and [message] of the body and
    nothing else: two requests that agree on these three fields (and on
    route, addresses and time) get the same response and leave the same
    state, whatever other fields their bodies have. *)
Theorem other_body_fields_are_ignored req req' st :
  target req' = target req → ip req' = ip req →
  remoteAddress req' = remoteAddress req → now req' = now req →
  (∀ i, get (body req') (key i) = get (body req) (key i)) →
  handle req' st = handle req st.
Proof.
  intros Ht Hi Hr Hn Hb.
  pose proof (Hb Name) as HN. pose proof (Hb Email) as HE. pose proof (Hb Message) as HM.
  cbn [key] in HN, HE, HM.
  assert (errors_of (body req') = errors_of (body req)) as Herr.
  { unfold errors_of, name_errors, email_errors, message_errors. by rewrite HN, HE, HM. }
  destruct (target req) eqn:E.
  - rewrite !handle_submit, Herr by congruence.
    destruct (errors_of (body req)); [|done].
    unfold userData_of, submitted. cbn [key]. by rewrite HN, HE, HM, Hi, Hr, Hn.
  - by rewrite !handle_submissions by congruence.
  - by rewrite !handle_health, Hn by congruence.
  - by rewrite !handle_unmatched by congruence.
Qed.

End DemoExtras.

(** ** Regular expressions *)

Section RegExpFacts.
Import RegExp.

Lemma nullable_spec r : nullable r = true ↔ Matches r [].
Proof.
  split.
  - induction r; simpl; intros Hn; try discriminate.
    + constructor.
    + apply andb_true_iff in Hn as [H1 H2].
      change (@nil N) with (@nil N ++ []). constructor; auto.
    + apply orb_true_iff in Hn as [?|?]; [apply MAltL|apply MAltR]; auto.
    + constructor.
  - intros Hm. remember [] as s eqn:Es. induction Hm; simpl; try done.
    + apply app_eq_nil in Es as [-> ->]. by rewrite IHHm1, IHHm2.
    + by rewrite IHHm.
    + rewrite IHHm; [apply orb_true_r|done].
Qed.

Lemma deriv_sound c r s : Matches (deriv c r) s → Matches r (c :: s).
Proof.
  revert s. induction r; simpl; intros s Hm.
  - inversion Hm.
  - inversion Hm.
  - destruct (p c) eqn:Hp; inversion Hm; subst. by constructor.
  - destruct (nullable r1) eqn:Hn.
    + inversion Hm as [| | | ? ? ? Hl | ? ? ? Hr | |]; subst.
      * inversion Hl; subst. rewrite app_comm_cons. constructor; auto.
      * apply nullable_spec in Hn. change (c :: s) with ([] ++ c :: s).
        constructor; auto.
    + inversion Hm; subst. rewrite app_comm_cons. constructor; auto.
  - inversion Hm; subst; [apply MAltL|apply MAltR]; auto.
  - inversion Hm; subst. rewrite app_comm_cons. constructor; auto.
Qed.

Lemma deriv_complete c r s : Matches r (c :: s) → Matches (deriv c r) s.
Proof.
  intros Hm. remember (c :: s) as cs eqn:E. revert s E.
  induction Hm as [|p d Hp|r1 r2 s1 s2 Hm1 IH1 Hm2 IH2|r1 r2 s0 Hm IH|r1 r2 s0 Hm IH
                   | |r s1 s2 Hm1 IH1 Hm2 IH2];
    intros t E; simpl; try discriminate.
  - injection E as -> <-. rewrite Hp. constructor.
  - destruct s1 as [|c1 s1].
    + simpl in E. subst s2. apply nullable_spec in Hm1. rewrite Hm1.
      apply MAltR. by apply IH2.
    + injection E as -> <-.
      destruct (nullable r1); [apply MAltL|]; constructor; auto.
  - apply MAltL. auto.
  - apply MAltR. auto.
  - destruct s1 as [|c1 s1].
    + simpl in E. by apply IH2.
    + injection E as -> <-. constructor; auto.
Qed.

(** The matcher decides the language. *)
Lemma test_spec r s : test r s = true ↔ Matches r s.
Proof.
  revert r. induction s as [|c s IH]; intros r; simpl.
  - apply nullable_spec.
  - rewrite IH. split; [apply deriv_sound|apply deriv_complete].
Qed.

Lemma Matches_star_class p s : Matches (Star (Class p)) s ↔ Forall (λ c, p c = true) s.
Proof.
  split.
  - intros Hm. remember (Star (Class p)) as r eqn:Er.
    induction Hm; try discriminate; [constructor|].
    injection Er as ->. inversion Hm1; subst. constructor; auto.
  - induction 1 as [|c s Hc _ IH]; [constructor|].
    change (c :: s) with ([c] ++ s). constructor; [by constructor|done].
Qed.

Lemma Matches_plus_class p s :
  Matches (Plus (Class p)) s ↔ s ≠ [] ∧ Forall (λ c, p c = true) s.
Proof.
  unfold Plus. split.
  - intros Hm. inversion Hm as [| |? ? s1 s2 H1 H2| | | |]; subst.
    inversion H1; subst. apply Matches_star_class in H2.
    split; [done|]. by constructor.
  - intros [Hne Hs]. destruct Hs as [|c s Hc Hs]; [done|].
    change (c :: s) with ([c] ++ s). constructor; [by constructor|].
    by apply Matches_star_class.
Qed.

Lemma Matches_unit (c : N) s : Matches (Class (N.eqb c)) s ↔ s = [c].
Proof.
  split.
  - intros Hm. inversion Hm; subst. by apply N.eqb_eq in H0 as ->.
  - intros ->. constructor. apply N.eqb_refl.
Qed.

Lemma Matches_seq r1 r2 s :
  Matches (Seq r1 r2) s ↔ ∃ s1 s2, s = s1 ++ s2 ∧ Matches r1 s1 ∧ Matches r2 s2.
Proof.
  split.
  - intros Hm. inversion Hm; subst. eauto.
  - intros (s1 & s2 & -> & ? & ?). by constructor.
Qed.
End RegExpFacts.

(** ** The client script *)

Import RegExp Client.

Lemma test_nameRegex s : test nameRegex s = matches_letters_and_spaces s.
Proof.
  apply eq_true_iff_eq. rewrite test_spec. unfold nameRegex.
  rewrite Matches_plus_class, matches_letters_and_spaces_spec.
  split; intros [? Hf]; split; try done; eapply Forall_impl; try exact Hf;
    intros c; simpl; rewrite orb_true_iff; done.
Qed.

Lemma trim_nil_spaces s : trim s = [] → Forall (λ c, is_space c = true) s.
Proof.
  intros Ht. destruct (trim_split s) as (w1 & w2 & H1 & H2 & E).
  rewrite Ht in E. rewrite E. simpl. by apply Forall_app.
Qed.

Lemma ltrim_spaces s : Forall (λ c, is_space c = true) s → ltrim s = [].
Proof. induction 1 as [|c s Hc _ IH]; [done|]. simpl. by rewrite Hc. Qed.

Lemma spaces_trim_nil s : Forall (λ c, is_space c = true) s → trim s = [].
Proof. intros Hs. unfold trim. by rewrite ltrim_spaces. Qed.

Lemma blank_spec s : blank s = true ↔ Forall (λ c, is_space c = true) s.
Proof.
  unfold blank. rewrite bool_decide_eq_true.
  split; [apply trim_nil_spaces|apply spaces_trim_nil].
Qed.

Lemma len_le_length s : (len s ≤ Z.of_nat (length s))%Z.
Proof. unfold len. lia. Qed.

Lemma validateName_None n :
  validateName n = None
  ↔ trim n ≠ [] ∧ 2 ≤ length n ≤ 100 ∧ matches_letters_and_spaces n = true.
Proof.
  unfold validateName, blank. rewrite test_nameRegex.
  case_bool_decide as Hb; [split; [done|tauto]|].
  destruct (Nat.ltb_spec (length n) 2); [split; [done|lia]|].
  destruct (Nat.ltb_spec 100 (length n)); [split; [done|lia]|].
  destruct (matches_letters_and_spaces n); simpl; split; try done; try tauto.
  intros (_ & _ & ?). done.
Qed.

Lemma validateMessage_None m :
  validateMessage m = None ↔ trim m ≠ [] ∧ 10 ≤ length m ≤ 1000.
Proof.
  unfold validateMessage, blank.
  case_bool_decide as Hb; [split; [done|tauto]|].
  destruct (Nat.ltb_spec (length m) 10); [split; [done|lia]|].
  destruct (Nat.ltb_spec 1000 (length m)); [split; [done|lia]|].
  split; [|done]. intros _. split; [done|lia].
Qed.

Section ClientRules.
Context `{Library}.

(** X10.  The name check of the client script and the name rule of the
    server accept the same names, except the blank ones (white space
    only), which the client alone refuses. *)
Theorem client_name_check_is_the_server_rule n :
  validateName n = None ↔ rule Name n = true ∧ trim n ≠ [].
Proof.
  rewrite validateName_None, rule_name_spec, matches_letters_and_spaces_spec.
  split.
  - intros (Ht & Hl & _ & Hc). done.
  - intros ((Hl & Hc) & Ht). repeat split; try done; try lia.
    intros ->. simpl in Hl. lia.
Qed.

(** X11.  A message the client script accepts is not empty for the
    server and is not too long for it.  On text without surrogates and
    variation selectors, where the two count the same length, the client
    accepts exactly the messages the server rule accepts that are not
    blank. *)
Theorem client_message_check_and_the_server_rule m :
  (validateMessage m = None → notEmpty m = true ∧ (len m ≤ 1000)%Z)
  ∧ (Forall plain m →
     validateMessage m = None ↔ rule Message m = true ∧ trim m ≠ []).
Proof.
  split.
  - intros (Ht & Hl)%validateMessage_None. split.
    + unfold notEmpty, isEmpty. rewrite negb_true_iff, bool_decide_eq_false. lia.
    + pose proof (len_le_length m). lia.
  - intros Hp. rewrite validateMessage_None. unfold rule, notEmpty, isEmpty, isLength.
    rewrite !andb_true_iff, negb_true_iff, bool_decide_eq_false, !Z.leb_le.
    rewrite (len_plain m Hp). split.
    + intros (Ht & Hl). repeat split; try done; lia.
    + intros ((Hne & Hl) & Ht). split; [done|lia].
Qed.
End ClientRules.

Lemma Matches_emailRegex e :
  Matches emailRegex e
  ↔ ∃ u a b, e = u ++ 64%N :: a ++ 46%N :: b
             ∧ u ≠ [] ∧ a ≠ [] ∧ b ≠ []
             ∧ Forall (λ c, is_address_unit c = true) (u ++ a ++ b).
Proof.
  unfold emailRegex. split.
  - intros (u & s1 & -> & Hu & H1)%Matches_seq.
    apply Matches_seq in H1 as (x & s2 & -> & ->%Matches_unit & H2).
    apply Matches_seq in H2 as (a & s3 & -> & Ha & H3).
    apply Matches_seq in H3 as (y & b & -> & ->%Matches_unit & Hb).
    apply Matches_plus_class in Hu as [? ?], Ha as [? ?], Hb as [? ?].
    exists u, a, b. repeat split; try done. rewrite !Forall_app. done.
  - intros (u & a & b & -> & Hu & Ha & Hb & Hf).
    rewrite !Forall_app in Hf. destruct Hf as (Hfu & Hfa & Hfb).
    apply Matches_seq. exists u, (64%N :: a ++ 46%N :: b).
    split; [done|]. split; [by apply Matches_plus_class|].
    apply Matches_seq. exists [64%N], (a ++ 46%N :: b).
    split; [done|]. split; [by apply Matches_unit|].
    apply Matches_seq. exists a, (46%N :: b).
    split; [done|]. split; [by apply Matches_plus_class|].
    apply Matches_seq. exists [46%N], b.
    split; [done|]. split; [by apply Matches_unit|by apply Matches_plus_class].
Qed.

Lemma address_unit_spec c :
  is_address_unit c = true ↔ is_space c = false ∧ c ≠ 64%N.
Proof.
  unfold is_address_unit. rewrite negb_true_iff, orb_false_iff, N.eqb_neq. done.
Qed.

(** X12.  [validateEmail] accepts exactly the texts of at most 255 code
    units of the shape u [@] a [.] b, with u, a and b not empty and free
    of white space and of the at sign.  An accepted address therefore has
    no white space and exactly one at sign. *)
Theorem client_email_check_shape e :
  (validateEmail e = None
   ↔ length e ≤ 255
     ∧ ∃ u a b, e = u ++ 64%N :: a ++ 46%N :: b
                ∧ u ≠ [] ∧ a ≠ [] ∧ b ≠ []
                ∧ Forall (λ c, is_address_unit c = true) (u ++ a ++ b))
  ∧ (validateEmail e = None →
     Forall (λ c, is_space c = false) e
     ∧ length (filter (λ c, c = 64%N) e) = 1).
Proof.
  assert (validateEmail e = None
          ↔ length e ≤ 255 ∧ Matches emailRegex e) as Hv.
  { unfold validateEmail.
    destruct (blank e) eqn:Hb.
    - split; [done|]. intros [_ Hm]. apply blank_spec in Hb.
      apply Matches_emailRegex in Hm as (u & a & b & -> & Hu & _ & _ & Hf).
      destruct u as [|c u]; [done|].
      apply Forall_cons in Hb as [Hc _]. apply Forall_cons in Hf as [Hc' _].
      apply address_unit_spec in Hc' as [? _]. congruence.
    - destruct (test emailRegex e) eqn:Ht; simpl.
      + apply test_spec in Ht.
        destruct (Nat.ltb_spec 255 (length e)); split; try done; try lia;
          intros ?; split; try done; lia.
      + split; [done|]. intros [_ Hm%test_spec]. congruence. }
  split.
  - rewrite Hv. by rewrite Matches_emailRegex.
  - intros (_ & Hm)%Hv. apply Matches_emailRegex in Hm as (u & a & b & -> & _ & _ & _ & Hf).
    rewrite !Forall_app in Hf. destruct Hf as (Hu & Ha & Hb).
    assert (∀ s, Forall (λ c, is_address_unit c = true) s →
                 Forall (λ c, is_space c = false) s
                 ∧ filter (λ c, c = 64%N) s = []) as Hs.
    { intros s Hs. split.
      - eapply Forall_impl; [exact Hs|]. by intros c [? _]%address_unit_spec.
      - induction Hs as [|c s Hc _ IH]; [done|].
        apply address_unit_spec in Hc as [_ Hc]. rewrite filter_cons.
        by rewrite decide_False. }
    destruct (Hs u Hu) as [Hu1 Hu2], (Hs a Ha) as [Ha1 Ha2], (Hs b Hb) as [Hb1 Hb2].
    split.
    + rewrite Forall_app, Forall_cons, Forall_app, Forall_cons. done.
    + rewrite filter_app, filter_cons, decide_True by done.
      rewrite filter_app, filter_cons, decide_False by done.
      by rewrite Hu2, Ha2, Hb2.
Qed.

Lemma escapeHtml_cons c t : escapeHtml (c :: t) = escape_unit c ++ escapeHtml t.
Proof. reflexivity. Qed.

Section Escape.
Local Open Scope N_scope.

Lemma escape_unit_cases c :
  (c = 38 ∧ escape_unit c = [38; 97; 109; 112; 59])
  ∨ (c = 0xA0 ∧ escape_unit c = [38; 110; 98; 115; 112; 59])
  ∨ (c = 60 ∧ escape_unit c = [38; 108; 116; 59])
  ∨ (c = 62 ∧ escape_unit c = [38; 103; 116; 59])
  ∨ (c ≠ 38 ∧ c ≠ 0xA0 ∧ c ≠ 60 ∧ c ≠ 62 ∧ escape_unit c = [c]).
Proof.
  unfold escape_unit.
  destruct (N.eqb_spec c 38) as [->|?]; [by left|].
  destruct (N.eqb_spec c 0xA0) as [->|?]; [by right; left|].
  destruct (N.eqb_spec c 60) as [->|?]; [by right; right; left|].
  destruct (N.eqb_spec c 62) as [->|?]; [by right; right; right; left|].
  by right; right; right; right.
Qed.

End Escape.

(** X13.  The result of [escapeHtml] has no angle bracket and no
    no-break space, whatever the text, so that it cannot open a tag when
    it is put into [innerHTML]; a text without ampersand, angle bracket
    and no-break space is returned as it is. *)
Theorem escapeHtml_has_no_markup t :
  Forall (λ c, c ≠ 60%N ∧ c ≠ 62%N ∧ c ≠ 0xA0%N) (escapeHtml t)
  ∧ (Forall (λ c, c ≠ 38%N ∧ c ≠ 60%N ∧ c ≠ 62%N ∧ c ≠ 0xA0%N) t → escapeHtml t = t).
Proof.
  split.
  - induction t as [|c t IH]; [constructor|].
    rewrite escapeHtml_cons, Forall_app. split; [|done].
    destruct (escape_unit_cases c) as [[_ ->]|[[_ ->]|[[_ ->]|[[_ ->]|(?&?&?&?& ->)]]]];
      repeat constructor; done.
  - induction 1 as [|c t (?&?&?&?) _ IH]; [done|].
    rewrite escapeHtml_cons, IH.
    destruct (escape_unit_cases c) as [[? _]|[[? _]|[[? _]|[[? _]|(_&_&_&_& ->)]]]]; done.
Qed.

(** X14.  [escapeHtml] loses nothing: two texts with the same escaped form
    are the same text. *)
Theorem escapeHtml_inj t t' : escapeHtml t = escapeHtml t' → t = t'.
Proof.
  revert t'. induction t as [|c t IH]; intros [|c' t'].
  - done.
  - rewrite escapeHtml_cons.
    destruct (escape_unit_cases c') as [[_ ->]|[[_ ->]|[[_ ->]|[[_ ->]|(_&_&_&_& ->)]]]];
      discriminate.
  - rewrite escapeHtml_cons.
    destruct (escape_unit_cases c) as [[_ ->]|[[_ ->]|[[_ ->]|[[_ ->]|(_&_&_&_& ->)]]]];
      discriminate.
  - rewrite !escapeHtml_cons.
    destruct (escape_unit_cases c) as [[-> ->]|[[-> ->]|[[-> ->]|[[-> ->]|(?&?&?&?& ->)]]]];
    destruct (escape_unit_cases c') as [[-> ->]|[[-> ->]|[[-> ->]|[[-> ->]|(?&?&?&?& ->)]]]];
      simpl; intros E; try discriminate; try (injection E as E; f_equal; by apply IH);
      try (injection E as E1 E; congruence);
      injection E as -> E; f_equal; by apply IH.
Qed.

Section SubmitListener.
Context `{Library}.

Lemma form_errors_nil n e m :
  form_errors n e m = []
  ↔ validateName n = None ∧ validateEmail e = None ∧ validateMessage m = None.
Proof.
  unfold form_errors. rewrite !app_nil.
  destruct (validateName n), (validateEmail e), (validateMessage m);
    split; intros (? & ? & ?); done.
Qed.

(** X15.  A request the submit listener of the form sends (the three
    checks of the client passed), with a message without surrogates and
    variation selectors, is answered by the demo server with 201 or 400,
    and a 400 can only carry errors on the email; on a 201 the record
    stored has the name as typed and the message trimmed. *)
Theorem sent_form_can_only_fail_on_email n e m req st :
  form_errors n e m = [] → Forall plain m →
  target req = POST_api_submit → body req = form_body n e m →
  let '(r, st') := handle req st in
  (status r = 201 ∨ status r = 400)
  ∧ (∀ errs err, errors r = Some errs → err ∈ errs → path err = "email")
  ∧ (status r = 201 →
     ∃ rec, submissions st' = submissions st ++ [rec]
            ∧ get rec "name" = JString n
            ∧ get rec "message" = JString (trim m)).
Proof.
  intros (Hn & _ & Hm)%form_errors_nil Hp Ht Hb.
  apply validateName_None in Hn as (_ & Hnl & Hnm).
  apply validateMessage_None in Hm as (_ & Hml).
  assert (name_errors (body req) = []) as HN.
  { apply name_errors_nil. rewrite Hb. unfold submitted, form_body. cbn [key].
    change (toString (get _ "name")) with n.
    apply rule_name_spec. split; [lia|]. by apply matches_letters_and_spaces_spec in Hnm as []. }
  assert (message_errors (body req) = []) as HM.
  { apply message_errors_nil. rewrite Hb. unfold submitted, form_body. cbn [key].
    change (toString (get _ "message")) with m.
    unfold rule, notEmpty, isEmpty, isLength.
    rewrite !andb_true_iff, negb_true_iff, bool_decide_eq_false, !Z.leb_le.
    rewrite (len_plain m Hp). repeat split; lia. }
  rewrite handle_submit by done. unfold errors_of. rewrite HN, HM, app_nil_r. simpl.
  destruct (email_errors (body req)) as [|e0 l] eqn:HE.
  - split; [by left|]. split; [done|]. intros _.
    exists (userData_of req (submissionCounter st)). split; [reflexivity|].
    split.
    + change (get (body req) "name" = JString n). by rewrite Hb.
    + change (JString (trim (submitted (body req) Message)) = JString (trim m)).
      by rewrite Hb.
  - split; [by right|]. split; [|done].
    cbn [errors]. intros errs err [= <-] Hin. rewrite <- HE in Hin.
    unfold email_errors in Hin. rewrite elem_of_app in Hin.
    destruct Hin as [Hin|Hin]; by apply complaint_path in Hin.
Qed.
End SubmitListener.

(** ** The MongoDB server *)

Section MongoFacts.
Context `{Library}.

Lemma mongo_submit req oid d :
  MongoSubmit.submit oid req d =
    match errors_of (body req) with
    | [] =>
        match MongoSubmit.save oid (get (body req) "name")
                (normalizeEmail (submitted (body req) Email))
                (JString (trim (submitted (body req) Message)))
                (js_or (js_or (ip req) (remoteAddress req)) (JString (str "unknown")))
                (now req) d with
        | Some (savedData, d') =>
            (json 201 {[ "success" := JBool true;
                         "message" := JString (str "Data saved successfully");
                         "id" := get savedData "_id" ]}, d')
        | None => (server_error, d)
        end
    | _ :: _ =>
        ({| status := 400;
            fields := {[ "success" := JBool false;
                         "message" := JString (str "Validation failed") ]};
            errors := Some (errors_of (body req));
            data := None |}, d)
    end.
Proof.
  unfold MongoSubmit.submit, validate. rewrite run_validateInput.
  destruct (errors_of (body req)) as [|e l]; [|reflexivity].
  unfold MongoSubmit.submit_handler; cbn [body ip remoteAddress now].
  rewrite get_write_back, !get_write_back_ne, get_write_back by discriminate.
  reflexivity.
Qed.

Lemma get_put k v o : get (MongoSubmit.put k (Some v) o) k = JString v.
Proof. unfold MongoSubmit.put, get. by rewrite lookup_insert_eq. Qed.

Lemma get_put_ne k k' v o : k ≠ k' → get (MongoSubmit.put k v o) k' = get o k'.
Proof.
  intros. unfold MongoSubmit.put, get. destruct v; [|done]. by rewrite lookup_insert_ne.
Qed.

Lemma path_valid_required p v :
  MongoSubmit.required p = true → MongoSubmit.path_valid p v = true →
  ∃ s, v = Some s ∧ s ≠ []
       ∧ ∀ n, MongoSubmit.maxlength p = Some n → length s ≤ n.
Proof.
  unfold MongoSubmit.path_valid. intros -> [Hr Hm]%andb_true_iff. simpl in Hr.
  destruct v as [[|c s]|]; try discriminate. eexists. split; [done|]. split; [done|].
  intros n Hn. rewrite Hn in Hm. by apply Nat.leb_le.
Qed.

Lemma cast_notEmpty v : notEmpty (toString v) = true → MongoSubmit.cast v = Some (toString v).
Proof. by destruct v. Qed.

Lemma save_Some oid vn ve vm va t d doc d' :
  MongoSubmit.save oid vn ve vm va t d = Some (doc, d') →
  ∃ sn se sm sa,
    MongoSubmit.set_path MongoSubmit.name_path vn = Some sn
    ∧ MongoSubmit.set_path MongoSubmit.email_path ve = Some se
    ∧ MongoSubmit.set_path MongoSubmit.message_path vm = Some sm
    ∧ MongoSubmit.set_path MongoSubmit.ipAddress_path va = Some sa
    ∧ (1 ≤ length sn ≤ 100) ∧ (1 ≤ length se ≤ 255) ∧ (1 ≤ length sm ≤ 1000)
    ∧ sa ≠ []
    ∧ Mongo.readyState d = 1%Z
    ∧ doc = <["name" := JString sn]> (<["email" := JString se]>
              (<["message" := JString sm]> (<["ipAddress" := JString sa]>
                 {[ "_id" := JString oid; "createdAt" := JDate t; "__v" := JNumber 0 ]})))
    ∧ d' = {| Mongo.readyState := Mongo.readyState d;
              Mongo.documents := Mongo.documents d ++ [doc] |}.
Proof.
  unfold MongoSubmit.save.
  destruct (_ && _) eqn:Hv; [|discriminate]. intros [= <- <-].
  apply andb_true_iff in Hv as [Hv Hup%Z.eqb_eq].
  apply andb_true_iff in Hv as [Hv Hva].
  apply andb_true_iff in Hv as [Hv Hvm].
  apply andb_true_iff in Hv as [Hvn Hve].
  apply path_valid_required in Hvn as (sn & En & Hnn & Hnl); [|done].
  apply path_valid_required in Hve as (se & Ee & Hen & Hel); [|done].
  apply path_valid_required in Hvm as (sm & Em & Hmn & Hml); [|done].
  apply path_valid_required in Hva as (sa & Ea & Han & _); [|done].
  specialize (Hnl 100 eq_refl). specialize (Hml 1000 eq_refl). specialize (Hel 255 eq_refl).
  exists sn, se, sm, sa. rewrite En, Ee, Em, Ea.
  repeat split; try done; try lia.
  - destruct sn; simpl; [done|lia].
  - destruct se; simpl; [done|lia].
  - destruct sm; simpl; [done|lia].
Qed.

(** X16.  When the MongoDB server answers 201, the connection was up and
    one document was added to the collection: its [_id] is the [id] of
    the response, its name and message are the submitted ones trimmed,
    both not empty and within the schema's [maxlength], its email is a
    string of 1 to 255 code units, and its [createdAt] is the time of
    the request. *)
Theorem mongo_saved_document oid req d r d' :
  MongoSubmit.submit oid req d = (r, d') → status r = 201 →
  let n := submitted (body req) Name in
  let m := submitted (body req) Message in
  ∃ doc em,
    Mongo.documents d' = Mongo.documents d ++ [doc]
    ∧ Mongo.readyState d = 1%Z
    ∧ get (fields r) "id" = get doc "_id"
    ∧ get doc "name" = JString (trim n) ∧ 1 ≤ length (trim n) ≤ 100
    ∧ get doc "message" = JString (trim m) ∧ 1 ≤ length (trim m) ≤ 1000
    ∧ get doc "email" = JString em ∧ 1 ≤ length em ≤ 255
    ∧ get doc "createdAt" = JDate (now req).
Proof.
  rewrite mongo_submit. intros Hs H201 n m.
  destruct (errors_of (body req)) as [|e0 l] eqn:Herr; [|by injection Hs as <- _].
  pose proof (valid_rule _ Name Herr) as Hn. fold n in Hn. simpl in Hn.
  apply andb_true_iff in Hn as [[Hne _]%andb_true_iff _].
  destruct (MongoSubmit.save _ _ _ _ _ _ _) as [[doc d1]|] eqn:Hsave;
    [|by injection Hs as <- _].
  injection Hs as <- <-.
  apply save_Some in Hsave
    as (sn & se & sm & sa & En & Ee & Em & Ea & Hln & Hle & Hlm & _ & Hup & -> & ->).
  unfold MongoSubmit.set_path in En, Em. rewrite (cast_notEmpty (get (body req) "name") Hne) in En.
  simpl in En, Em. injection En as <-. injection Em as <-.
  rewrite trim_trim in *. fold m in Hlm |- *.
  change (toString (get (body req) "name")) with n in *.
  eexists _, se. split; [reflexivity|]. split; [done|].
  repeat split; try done; try lia.
Qed.

(** X17.  A submission that passes [validateInput] but whose name or
    message is blank is refused by the schema ([trim], then [required]):
    the MongoDB server answers 500 "Internal server error" and stores
    nothing. *)
Theorem mongo_blank_input_is_an_internal_error oid req d :
  valid (body req) →
  trim (submitted (body req) Name) = [] ∨ trim (submitted (body req) Message) = [] →
  MongoSubmit.submit oid req d = (server_error, d).
Proof.
  intros Hv%errors_of_nil Hb. rewrite mongo_submit, Hv.
  pose proof (valid_rule _ Name Hv) as Hn. simpl in Hn.
  apply andb_true_iff in Hn as [[Hne _]%andb_true_iff _].
  unfold MongoSubmit.save.
  assert (MongoSubmit.path_valid MongoSubmit.name_path
            (MongoSubmit.set_path MongoSubmit.name_path (get (body req) "name"))
          && MongoSubmit.path_valid MongoSubmit.message_path
               (MongoSubmit.set_path MongoSubmit.message_path
                  (JString (trim (submitted (body req) Message)))) = false) as Hf.
  { unfold MongoSubmit.set_path. rewrite (cast_notEmpty (get (body req) "name") Hne). simpl.
    rewrite trim_trim. destruct Hb as [Hb|Hb].
    - unfold submitted in Hb. cbn [key] in Hb. by rewrite Hb.
    - rewrite Hb. apply andb_false_r. }
  apply andb_false_iff in Hf as [Hf|Hf]; rewrite Hf, ?andb_false_r; done.
Qed.

End MongoFacts.

(** ** Instances of the further properties *)


(** X3, witness: a health check after the example of the specification. *)
Lemma health_counts_accepted_submissions_witness :
  get (fields (handle (health_request 1700000000001) (serve [jane] initial).2).1)
    "submissions_count"
  = JNumber (Z.of_nat (length (returned_ids (serve [jane] initial).1))).
Proof.
  apply (health_counts_accepted_submissions [jane] (health_request 1700000000001) eq_refl).
Defined.

(** X4, witness: the example of the specification. *)
Lemma stored_record_fields_witness :
  ∃ rec, submissions (handle jane initial).2 = submissions initial ++ [rec]
         ∧ dom rec = six_fields
         ∧ get rec "_id" = get (fields (handle jane initial).1) "id"
         ∧ get rec "name" = get (body jane) "name"
         ∧ get rec "createdAt" = JDate (now jane).
Proof.
  destruct (stored_record_fields jane initial (handle jane initial).1 (handle jane initial).2)
    as (rec & Hs & Hd & Hi & Hn & Hc & _).
  - by destruct (handle jane initial).
  - vm_compute; reflexivity.
  - exists rec. repeat split; assumption.
Defined.

(** X5, witness: a submission with an empty body. *)
Lemma empty_inputs_get_every_error_witness :
  msg <$> (run_chain name_chain (body empty_post)).2
  = [ "Name is required";
      "Name must be between 2 and 100 characters";
      "Name can only contain letters and spaces" ]
  ∧ msg <$> (run_chain message_chain (body empty_post)).2
    = [ "Message is required";
        "Message must be between 10 and 1000 characters" ].
Proof.
  destruct (empty_inputs_get_every_error (body empty_post)) as (Hn & Hm & Hmn & Hmm).
  split; [apply Hn, Hmn|apply Hm, Hmm]; reflexivity.
Defined.

(** X6, witness: the first error of a submission with an empty body. *)
Lemma errors_name_violated_inputs_witness :
  ∃ e i, head (run_chains validateInput (body empty_post)).2 = Some e
         ∧ path e = key i ∧ violates (body empty_post) i ∧ location e = "body".
Proof.
  destruct (run_chains validateInput (body empty_post)).2 as [|e l] eqn:E;
    [by vm_compute in E|].
  destruct (errors_name_violated_inputs (body empty_post) e) as (i & Hp & Hv & Hl).
  - rewrite E. apply list_elem_of_here.
  - exists e, i. repeat split; assumption.
Defined.

(** X7, witness: a listing after two submissions. *)
Lemma listing_keeps_the_newest_witness :
  ∃ items,
    data (handle (list_request 1700000000900)
            (serve [first_of_instant; later_post] initial).2).1 = Some items
    ∧ items ≡ₚ project <$> submissions (serve [first_of_instant; later_post] initial).2.
Proof.
  destruct (listing_keeps_the_newest (list_request 1700000000900)
              (serve [first_of_instant; later_post] initial).2 eq_refl)
    as (items & Hdata & _ & Hall & _).
  exists items. split; [exact Hdata|]. apply Hall. vm_compute. lia.
Defined.

(** X8, witness: a listing after two submissions, the second one later. *)
Lemma listing_of_ascending_store_witness :
  dated (submissions (serve [first_of_instant; later_post] initial).2)
  ∧ ascending (submissions (serve [first_of_instant; later_post] initial).2)
  ∧ data (handle (list_request 1700000000900)
            (serve [first_of_instant; later_post] initial).2).1
    = Some (take 50 (reverse
              (project <$> submissions (serve [first_of_instant; later_post] initial).2))).
Proof.
  assert (dated (submissions (serve [first_of_instant; later_post] initial).2))
    as Hd by (unfold dated; refine (bool_decide_unpack _ _); vm_compute; exact I).
  assert (ascending (submissions (serve [first_of_instant; later_post] initial).2))
    as Ha.
  { vm_compute. repeat constructor. }
  split; [exact Hd|]. split; [exact Ha|].
  apply (listing_of_ascending_store (list_request 1700000000900)
           (serve [first_of_instant; later_post] initial).2 eq_refl Hd Ha).
Defined.

(** X9, witness: the example of the specification with one more field in
    its body. *)
Lemma other_body_fields_are_ignored_witness :
  handle jane_with_extra initial = handle jane initial.
Proof.
  apply (other_body_fields_are_ignored jane jane_with_extra initial);
    try reflexivity.
  intros []; vm_compute; reflexivity.
Defined.

(** X10, witness: the name of the example of the specification. *)
Lemma client_name_check_is_the_server_rule_witness :
  validateName (str "Jane Doe") = None
  ∧ rule Name (str "Jane Doe") = true ∧ trim (str "Jane Doe") ≠ [].
Proof.
  assert (validateName (str "Jane Doe") = None) as Hv by (vm_compute; reflexivity).
  split; [exact Hv|].
  apply (client_name_check_is_the_server_rule (str "Jane Doe")), Hv.
Defined.

(** X11, witness: the message of the example of the specification. *)
Lemma client_message_check_and_the_server_rule_witness :
  validateMessage (str "Hello, this is a test message.") = None
  ∧ Forall plain (str "Hello, this is a test message.")
  ∧ rule Message (str "Hello, this is a test message.") = true.
Proof.
  assert (validateMessage (str "Hello, this is a test message.") = None) as Hv
    by (vm_compute; reflexivity).
  assert (Forall plain (str "Hello, this is a test message.")) as Hp
    by (unfold plain; refine (bool_decide_unpack _ _); vm_compute; exact I).
  split; [exact Hv|]. split; [exact Hp|].
  destruct (client_message_check_and_the_server_rule
              (str "Hello, this is a test message.")) as [_ Hiff].
  apply (Hiff Hp), Hv.
Defined.

(** X12, witness: the address of the example of the specification. *)
Lemma client_email_check_shape_witness :
  validateEmail (str "JANE@Example.com") = None
  ∧ Forall (λ c, is_space c = false) (str "JANE@Example.com")
  ∧ length (filter (λ c, c = 64%N) (str "JANE@Example.com")) = 1.
Proof.
  assert (validateEmail (str "JANE@Example.com") = None) as Hv by (vm_compute; reflexivity).
  split; [exact Hv|].
  destruct (client_email_check_shape (str "JANE@Example.com")) as [_ Hshape].
  apply Hshape, Hv.
Defined.

(** X13, witness: a text of letters. *)
Lemma escapeHtml_has_no_markup_witness :
  escapeHtml (str "Jane Doe") = str "Jane Doe".
Proof.
  destruct (escapeHtml_has_no_markup (str "Jane Doe")) as [_ Hsame].
  apply Hsame. refine (bool_decide_unpack _ _); vm_compute; exact I.
Defined.

(** X14, witness: a text with markup and itself. *)
Lemma escapeHtml_inj_witness :
  escapeHtml (str "<b>") = escapeHtml (str "<b>") ∧ str "<b>" = str "<b>".
Proof.
  split; [reflexivity|]. apply (escapeHtml_inj (str "<b>") (str "<b>")), eq_refl.
Defined.

(** X15, witness: the example of the specification, typed into the form. *)
Lemma sent_form_can_only_fail_on_email_witness :
  form_errors (str "Jane Doe") (str "JANE@Example.com")
    (str "Hello, this is a test message.") = []
  ∧ (status (handle jane initial).1 = 201 ∨ status (handle jane initial).1 = 400).
Proof.
  split; [vm_compute; reflexivity|].
  pose proof (sent_form_can_only_fail_on_email (str "Jane Doe") (str "JANE@Example.com")
                (str "Hello, this is a test message.") jane initial) as Hw.
  destruct (handle jane initial) as [r st'].
  destruct Hw as (Hs & _).
  - vm_compute; reflexivity.
  - unfold plain; refine (bool_decide_unpack _ _); vm_compute; exact I.
  - reflexivity.
  - reflexivity.
  - exact Hs.
Defined.

(** X16, witness: the example of the specification, on a collection of one
    document. *)
Lemma mongo_saved_document_witness :
  status (MongoSubmit.submit sample_oid jane one_document).1 = 201
  ∧ ∃ doc,
      Mongo.documents (MongoSubmit.submit sample_oid jane one_document).2
      = Mongo.documents one_document ++ [doc]
      ∧ get doc "name" = JString (str "Jane Doe")
      ∧ get doc "createdAt" = JDate (now jane).
Proof.
  assert (status (MongoSubmit.submit sample_oid jane one_document).1 = 201) as H201
    by (vm_compute; reflexivity).
  split; [exact H201|].
  destruct (mongo_saved_document sample_oid jane one_document
              (MongoSubmit.submit sample_oid jane one_document).1
              (MongoSubmit.submit sample_oid jane one_document).2)
    as (doc & em & Hd & _ & _ & Hn & _ & _ & _ & _ & _ & Hc).
  - by destruct (MongoSubmit.submit sample_oid jane one_document).
  - exact H201.
  - exists doc. split; [exact Hd|]. split; [exact Hn|exact Hc].
Defined.

(** X17, witness: a name of two spaces. *)
Lemma mongo_blank_input_is_an_internal_error_witness :
  valid (body blank_name)
  ∧ MongoSubmit.submit sample_oid blank_name one_document = (server_error, one_document).
Proof.
  assert (valid (body blank_name)) as Hv by (intros []; vm_compute; reflexivity).
  split; [exact Hv|].
  apply (mongo_blank_input_is_an_internal_error sample_oid blank_name one_document Hv).
  left. vm_compute; reflexivity.
Defined.

